(** * Freelancer time tracker: the state engine and its derivations

    A shallow embedding of [src/app/page.tsx]: the reducer over the
    application state, the event handlers that guard it, the loader of the
    persisted snapshot, and the derivations (rate lookup, range filter,
    invoice lines and totals, CSV export).

    Conventions of the embedding.
    - Instants and durations (epoch milliseconds) are [Z].
    - Rates, hours and money are JavaScript numbers computed with [/], [*],
      [+] and [toFixed(2)]: they are binary64 floating-point numbers
      ([float]), with the arithmetic of IEEE 754 that JavaScript uses.
    - An optional property ([x?: T], [T | null]) is an [option]; JavaScript
      truthiness ([||], [&&], [!], [?:]) is written out per type.
    - [new Map(...)] used for lookup only is a [gmap]; the [Map] whose
      iteration order builds the invoice lines is an association list in
      insertion order. *)

From Stdlib Require Import ZArith Floats String Ascii List Lia.
From stdpp Require Import gmap strings list fin_maps pretty.
Import ListNotations.

Local Open Scope string_scope.
Local Open Scope Z_scope.

(** ** Data model *)

Definition ID := string.

Module Client.
Record t := mk {
  id : ID;
  name : string;
  email : option string;
  rate : option float;
  color : option string;
  active : bool
}.
End Client.

Module Project.
Record t := mk {
  id : ID;
  clientId : ID;
  name : string;
  rate : option float;
  color : option string;
  archived : bool
}.
End Project.

Module TimeEntry.
Record t := mk {
  id : ID;
  clientId : ID;
  projectId : ID;
  start : Z;
  end_ : option Z;
  durationMs : Z;
  notes : option string;
  tags : option (list string);
  billable : bool
}.
End TimeEntry.

Module LineItem.
Record t := mk {
  projectId : ID;
  description : string;
  hours : float;
  rate : float;
  amount : float
}.
End LineItem.

Inductive InvoiceStatus := draft | sent | paid | overdue.

(** The value of an [<input type="date">], and the [dueDate] copied from
    it: a calendar date, written [YYYY-MM-DD]. *)
Record IsoDate := mkDate { year : Z; month : Z; day : Z }.

Module Invoice.
Record t := mk {
  id : ID;
  number : string;
  clientId : ID;
  date : string;
  dueDate : option IsoDate;
  taxRate : option float;
  status : InvoiceStatus;
  lineItems : list LineItem.t;
  subtotal : float;
  tax : float;
  total : float
}.
End Invoice.

Module Timer.
Record t := mk {
  clientId : option ID;
  projectId : option ID;
  notes : option string;
  billable : bool;
  start : Z
}.
End Timer.

(** [AppState].  [runningTimer] is [None] for both [null] and [undefined]:
    the program only ever tests it for truthiness. *)
Record AppState := mkState {
  clients : list Client.t;
  projects : list Project.t;
  entries : list TimeEntry.t;
  invoices : list Invoice.t;
  runningTimer : option Timer.t
}.

(** An [AppState] object used as the source of a spread ([...parsed],
    [...action.payload]).  There the difference between an absent
    [runningTimer] property ([None]) and a present one, possibly [null]
    ([Some None]), is observable. *)
Record Snapshot := mkSnapshot {
  snap_clients : list Client.t;
  snap_projects : list Project.t;
  snap_entries : list TimeEntry.t;
  snap_invoices : list Invoice.t;
  snap_runningTimer : option (option Timer.t)
}.

Inductive Action :=
| INIT (payload : Snapshot)
| ADD_CLIENT (payload : Client.t)
| UPDATE_CLIENT (payload : Client.t)
| DELETE_CLIENT (id : ID)
| ADD_PROJECT (payload : Project.t)
| UPDATE_PROJECT (payload : Project.t)
| DELETE_PROJECT (id : ID)
| ADD_ENTRY (payload : TimeEntry.t)
| UPDATE_ENTRY (payload : TimeEntry.t)
| DELETE_ENTRY (id : ID)
| START_TIMER (payload : Timer.t)
| STOP_TIMER (end_ : Z)
| RESET_TIMER
| ADD_INVOICE (payload : Invoice.t)
| UPDATE_INVOICE (payload : Invoice.t)
| DELETE_INVOICE (id : ID).

(** ** The environment: clock and entropy

    [uid] reads [Math.random()] and [Date.now()], both rendered in base 36;
    [createInvoice] reads the calendar.  The texts read during one event are
    collected in [Env]. *)
Record Env := mkEnv {
  random36 : string;   (* Math.random().toString(36).slice(2, 10) *)
  now36 : string;      (* Date.now().toString(36) *)
  fullYear : Z;        (* new Date().getFullYear() *)
  today : string       (* new Date().toISOString().slice(0, 10) *)
}.

Definition uid (env : Env) (prefix : string) : ID :=
  prefix ++ "_" ++ random36 env ++ "_" ++ now36 env.

(** ** JavaScript truthiness, per type *)

(** [s || d] on an optional string: [undefined] and the empty string are
    falsy. *)
Definition or_string (s : option string) (d : string) : string :=
  match s with
  | Some (String a r) => String a r
  | _ => d
  end.

Definition truthy_string (s : option string) : bool :=
  match s with
  | Some (String _ _) => true
  | _ => false
  end.

(** [x || d] on an optional integer: [undefined] and [0] are falsy. *)
Definition or_int (x : option Z) (d : Z) : Z :=
  match x with
  | Some z => if Z.eqb z 0 then d else z
  | None => d
  end.

(** ** Persistence: [loadState] *)

Definition emptyState : AppState :=
  mkState [] [] [] [] None.

(** What [localStorage.getItem(STORAGE_KEY)] hands back: [null], or a text
    together with the outcome of [JSON.parse] on it ([None] when it
    throws).  The parsed value is taken at the type the source casts it to
    ([as AppState]). *)
Inductive StoredItem :=
| ItemNull
| ItemText (raw : string) (parsed : option Snapshot).

(** [{ runningTimer: null, ...parsed }]: the spread comes second, so a
    [runningTimer] property of [parsed] replaces the [null]. *)
Definition spread_over_null_timer (parsed : Snapshot) : AppState :=
  mkState (snap_clients parsed) (snap_projects parsed)
          (snap_entries parsed) (snap_invoices parsed)
          (match snap_runningTimer parsed with
           | Some t => t
           | None => None
           end).

Definition loadState (has_window : bool) (item : StoredItem) : AppState :=
  if negb has_window then emptyState
  else
    match item with
    | ItemNull => emptyState
    | ItemText raw parsed =>
        if negb (truthy_string (Some raw)) then emptyState
        else
          match parsed with
          | None => emptyState                       (* catch *)
          | Some p => spread_over_null_timer p
          end
    end.

(** [persistState]: the text stored is [JSON.stringify({ ...rest,
    runningTimer })]; a [null] timer is written as [null]. *)
Definition persistState (state : AppState) : Snapshot :=
  mkSnapshot (clients state) (projects state) (entries state)
             (invoices state) (Some (runningTimer state)).

(** ** The reducer *)

Definition with_clients (s : AppState) (l : list Client.t) : AppState :=
  mkState l (projects s) (entries s) (invoices s) (runningTimer s).
Definition with_projects (s : AppState) (l : list Project.t) : AppState :=
  mkState (clients s) l (entries s) (invoices s) (runningTimer s).
Definition with_entries (s : AppState) (l : list TimeEntry.t) : AppState :=
  mkState (clients s) (projects s) l (invoices s) (runningTimer s).
Definition with_invoices (s : AppState) (l : list Invoice.t) : AppState :=
  mkState (clients s) (projects s) (entries s) l (runningTimer s).
Definition with_runningTimer (s : AppState) (t : option Timer.t) : AppState :=
  mkState (clients s) (projects s) (entries s) (invoices s) t.

(** [!==] on identifiers *)
Definition id_neqb (a b : ID) : bool := negb (String.eqb a b).

(** [l.map((x) => (x.id === p.id ? p : x))] *)
Definition replace_by_id {A} (key : A -> ID) (p : A) (l : list A) : list A :=
  List.map (fun x => if String.eqb (key x) (key p) then p else x) l.

Definition reducer (env : Env) (state : AppState) (action : Action) : AppState :=
  match action with
  | INIT payload =>
      mkState (snap_clients payload) (snap_projects payload)
              (snap_entries payload) (snap_invoices payload)
              (match snap_runningTimer payload with
               | Some t => t
               | None => runningTimer state
               end)
  | ADD_CLIENT payload =>
      with_clients state (payload :: clients state)
  | UPDATE_CLIENT payload =>
      with_clients state (replace_by_id Client.id payload (clients state))
  | DELETE_CLIENT id =>
      mkState
        (List.filter (fun c => id_neqb (Client.id c) id) (clients state))
        (List.filter (fun p => id_neqb (Project.clientId p) id) (projects state))
        (List.filter (fun e => id_neqb (TimeEntry.clientId e) id) (entries state))
        (invoices state)
        (runningTimer state)
  | ADD_PROJECT payload =>
      with_projects state (payload :: projects state)
  | UPDATE_PROJECT payload =>
      with_projects state (replace_by_id Project.id payload (projects state))
  | DELETE_PROJECT id =>
      mkState
        (clients state)
        (List.filter (fun p => id_neqb (Project.id p) id) (projects state))
        (List.filter (fun e => id_neqb (TimeEntry.projectId e) id) (entries state))
        (invoices state)
        (runningTimer state)
  | ADD_ENTRY payload =>
      with_entries state (payload :: entries state)
  | UPDATE_ENTRY payload =>
      with_entries state (replace_by_id TimeEntry.id payload (entries state))
  | DELETE_ENTRY id =>
      with_entries state
        (List.filter (fun e => id_neqb (TimeEntry.id e) id) (entries state))
  | START_TIMER payload =>
      with_runningTimer state (Some payload)
  | STOP_TIMER end_ =>
      match runningTimer state with
      | None => state
      | Some t =>
          let start := Timer.start t in
          let durationMs := Z.max 0 (end_ - start) in
          let entry :=
            TimeEntry.mk
              (uid env "entry")
              (or_string (Timer.clientId t) "unassigned_client")
              (or_string (Timer.projectId t) "unassigned_project")
              start
              (Some end_)
              durationMs
              (Timer.notes t)
              (Some [])
              (Timer.billable t) in
          mkState (clients state) (projects state)
                  (entry :: entries state) (invoices state) None
      end
  | RESET_TIMER =>
      with_runningTimer state None
  | ADD_INVOICE payload =>
      with_invoices state (payload :: invoices state)
  | UPDATE_INVOICE payload =>
      with_invoices state (replace_by_id Invoice.id payload (invoices state))
  | DELETE_INVOICE id =>
      with_invoices state
        (List.filter (fun i => id_neqb (Invoice.id i) id) (invoices state))
  end.

(** ** The timer handlers of [Home]

    [dispatch] applies the reducer to the state the handler was rendered
    with: events are handled one at a time. *)

(** The dashboard form: [selClient], [selProject], [notes], [billable]. *)
Record TimerForm := mkTimerForm {
  selClient : option ID;
  selProject : option ID;
  form_notes : string;
  form_billable : bool
}.

(** [now] is [Date.now()]. *)
Definition startTimer (env : Env) (state : AppState) (form : TimerForm) (now : Z)
  : AppState :=
  match runningTimer state with
  | Some _ => state
  | None =>
      reducer env state
        (START_TIMER
           (Timer.mk (selClient form) (selProject form)
                     (Some (form_notes form)) (form_billable form) now))
  end.

Definition stopTimer (env : Env) (state : AppState) (now : Z) : AppState :=
  match runningTimer state with
  | None => state
  | Some _ => reducer env state (STOP_TIMER now)
  end.

Definition resetTimer (env : Env) (state : AppState) : AppState :=
  reducer env state RESET_TIMER.

(** ** [EntryDialog]: the save handler, and [onSave] in [Home] *)

(** The dialog's fields.  A [datetime-local] field is empty ([None]) or
    holds a text that [new Date(text).getTime()] turns into an instant. *)
Record EntryForm := mkEntryForm {
  dlg_clientId : option ID;
  dlg_projectId : option ID;
  dlg_start : option Z;
  dlg_end : option Z;
  dlg_notes : string;
  dlg_billable : bool
}.

(** [endMs || startMs] on numbers: [0] is falsy. *)
Definition or_zero (x d : Z) : Z := if Z.eqb x 0 then d else x.

(** The [onClick] of the dialog's button: [Some e] is the entry handed to
    [onSave], [None] the silent [return] of a failed validation. *)
Definition EntryDialog_save (env : Env) (entry : option TimeEntry.t)
    (form : EntryForm) : option TimeEntry.t :=
  match entry with
  | Some entry =>
      let startMs :=
        match dlg_start form with
        | Some s => s
        | None => TimeEntry.start entry
        end in
      let endMs :=
        match dlg_end form with
        | Some e => e
        | None => or_int (TimeEntry.end_ entry) (TimeEntry.start entry)
        end in
      let durationMs := Z.max 0 (or_zero endMs startMs - startMs) in
      Some (TimeEntry.mk
              (TimeEntry.id entry)
              (or_string (dlg_clientId form) (TimeEntry.clientId entry))
              (or_string (dlg_projectId form) (TimeEntry.projectId entry))
              startMs
              (Some endMs)
              durationMs
              (Some (dlg_notes form))
              (TimeEntry.tags entry)
              (dlg_billable form))
  | None =>
      match dlg_clientId form, dlg_projectId form, dlg_start form with
      | Some (String a c), Some (String b p), Some startMs =>
          let endMs :=
            match dlg_end form with
            | Some e => e
            | None => startMs
            end in
          let durationMs := Z.max 0 (endMs - startMs) in
          Some (TimeEntry.mk
                  (uid env "entry")
                  (String a c)
                  (String b p)
                  startMs
                  (Some endMs)
                  durationMs
                  (Some (dlg_notes form))
                  (Some [])
                  (dlg_billable form))
      | _, _, _ => None
      end
  end.

(** [onSave] of the [EntryDialog] element in [Home]. *)
Definition onSaveEntry (env : Env) (state : AppState) (e : TimeEntry.t)
  : AppState :=
  let exists_ :=
    List.existsb (fun x => String.eqb (TimeEntry.id x) (TimeEntry.id e))
                 (entries state) in
  reducer env state (if exists_ then UPDATE_ENTRY e else ADD_ENTRY e).

(** Pressing the button of the dialog opened on [entry]. *)
Definition saveEntryDialog (env : Env) (state : AppState)
    (entry : option TimeEntry.t) (form : EntryForm) : AppState :=
  match EntryDialog_save env entry form with
  | Some e => onSaveEntry env state e
  | None => state
  end.

(** ** Rates: [clientMap], [projectMap], [rateFor] *)

(** [new Map(pairs)]: a later pair with the same key replaces an earlier
    one. *)
Definition Map_of {A} (key : A -> ID) (l : list A) : gmap ID A :=
  List.fold_left (fun m x => <[key x := x]> m) l ∅.

Definition clientMap (state : AppState) : gmap ID Client.t :=
  Map_of Client.id (clients state).

Definition projectMap (state : AppState) : gmap ID Project.t :=
  Map_of Project.id (projects state).

(** [k && m.get(k)]: an absent or empty key looks nothing up. *)
Definition get_truthy {A} (m : gmap ID A) (k : option ID) : option A :=
  match k with
  | Some (String a r) => m !! String a r
  | _ => None
  end.

(** A number that passes an [if]: neither zero (of either sign) nor
    [NaN]. *)
Definition truthy_num (x : float) : bool :=
  negb (PrimFloat.eqb x 0) && PrimFloat.eqb x x.

(** An optional rate that passes an [if]. *)
Definition truthy_rate (r : option float) : option float :=
  match r with
  | Some q => if truthy_num q then Some q else None
  | None => None
  end.

Definition rateFor (state : AppState) (projectId clientId : option ID) : float :=
  match truthy_rate (get_truthy (projectMap state) projectId ≫= Project.rate) with
  | Some r => r
  | None =>
      match truthy_rate (get_truthy (clientMap state) clientId ≫= Client.rate) with
      | Some r => r
      | None => 0%float
      end
  end.

(** ** Date ranges: [filteredEntries], [invoiceEntries] *)

(** Days from 1970-01-01 to a date of the proleptic Gregorian calendar. *)
Definition days_from_civil (d : IsoDate) : Z :=
  let y := if month d <=? 2 then year d - 1 else year d in
  let era := y / 400 in
  let yoe := y - era * 400 in
  let mp := if month d >? 2 then month d - 3 else month d + 9 in
  let doy := (153 * mp + 2) / 5 + day d - 1 in
  let doe := yoe * 365 + yoe / 4 - yoe / 100 + doy in
  era * 146097 + doe - 719468.

Definition msPerDay : Z := 24 * 3600 * 1000.

(** [new Date("YYYY-MM-DD").getTime()]: midnight UTC of that day. *)
Definition Date_getTime (d : IsoDate) : Z := days_from_civil d * msPerDay.

(** Numbers that may be [-Infinity] or [Infinity]. *)
Inductive ExtNum := NegInfinity | Finite (z : Z) | Infinity.

(** [a <= b] on such numbers *)
Definition ext_leb (a b : ExtNum) : bool :=
  match a, b with
  | NegInfinity, _ => true
  | _, Infinity => true
  | Finite x, Finite y => x <=? y
  | _, _ => false
  end.

Definition range_from (fromDate : option IsoDate) : ExtNum :=
  match fromDate with
  | Some d => Finite (Date_getTime d)
  | None => NegInfinity
  end.

Definition range_to (toDate : option IsoDate) : ExtNum :=
  match toDate with
  | Some d => Finite (Date_getTime d + 24 * 3600 * 1000 - 1)
  | None => Infinity
  end.

(** [e.end ?? e.start] *)
Definition end_or_start (e : TimeEntry.t) : Z :=
  match TimeEntry.end_ e with
  | Some x => x
  | None => TimeEntry.start e
  end.

(** [e.start >= from && (e.end ?? e.start) <= to] *)
Definition in_range (from to : ExtNum) (e : TimeEntry.t) : bool :=
  ext_leb from (Finite (TimeEntry.start e))
  && ext_leb (Finite (end_or_start e)) to.

Definition filteredEntries (state : AppState) (fromDate toDate : option IsoDate)
  : list TimeEntry.t :=
  let from := range_from fromDate in
  let to := range_to toDate in
  List.filter (in_range from to) (entries state).

Definition invoiceEntries (state : AppState) (invoiceClient : option ID)
    (invoiceFrom invoiceTo : option IsoDate) : list TimeEntry.t :=
  match invoiceClient with
  | Some (String a r) =>
      let from := range_from invoiceFrom in
      let to := range_to invoiceTo in
      List.filter
        (fun e =>
           String.eqb (TimeEntry.clientId e) (String a r)
           && TimeEntry.billable e
           && in_range from to e)
        (entries state)
  | _ => []
  end.

(** ** Numbers: [toFixed(2)] and [hoursFromMs] *)

(** The number an integer denotes; exact below 2^53. *)
Definition of_Z (z : Z) : float :=
  SF2Prim (binary_normalize prec emax z 0 false).

(** The digits [x.toFixed(2)] prints for a finite [x] that is not an
    integer of the format (those print as themselves): the integer [n]
    nearest to [|x| * 100], the larger one on a tie, computed on the exact
    value [m * 2^e] of [|x|]. *)
Definition hundredths_of (m : positive) (e : Z) : Z :=
  (2 * (Z.pos m * 100) + 2 ^ (- e)) / (2 * 2 ^ (- e)).

(** The number a decimal text with two places denotes, the text given by
    its hundredths [n >= 0]: the binary64 number nearest to [n / 100], the
    even one on a tie.  The quotient is taken with 64 more bits, a lost
    remainder is kept as a last odd bit, and [binary_normalize] rounds
    once. *)
Definition Number_of_hundredths (n : Z) : float :=
  let scaled := n * 2 ^ 64 in
  let sticky := if scaled mod 100 =? 0 then 0 else 1 in
  SF2Prim (binary_normalize prec emax (Z.lor (scaled / 100) sticky) (- 64) false).

(** A number written with two decimals, given in hundredths:
    [cents 43703] is the number written [437.03]. *)
Definition cents (n : Z) : float :=
  if n <? 0 then (- Number_of_hundredths (- n))%float else Number_of_hundredths n.

(** [+x.toFixed(2)]: the text of [toFixed] read back as a number.  [NaN]
    and the infinities print as such and read back as themselves, and so
    does a number with no fractional bits; negative zero prints without
    sign.  Otherwise the text is the sign and the digits of
    [hundredths_of] with a point before the last two. *)
Definition toFixed2 (x : float) : float :=
  match Prim2SF x with
  | S754_zero _ => 0%float
  | S754_finite s m e =>
      if 0 <=? e then x
      else
        let r := Number_of_hundredths (hundredths_of m e) in
        if s then (- r)%float else r
  | _ => x
  end.

Definition hoursFromMs (ms : Z) : float :=
  toFixed2 (of_Z ms / 1000 / 3600)%float.

(** [a || b] on numbers. *)
Definition or_num (a b : float) : float := if truthy_num a then a else b.

(** ** Invoices: [invoiceLines], the totals, [createInvoice] *)

(** The value type of the [Map] that [invoiceLines] fills. *)
Record LineAcc := mkAcc {
  acc_hours : float;
  acc_rate : float;
  acc_name : string
}.

(** A [Map] read back in insertion order: [get], and [set], which
    overwrites in place or appends. *)
Fixpoint omap_get {V} (k : ID) (m : list (ID * V)) : option V :=
  match m with
  | [] => None
  | (k', v) :: rest => if String.eqb k' k then Some v else omap_get k rest
  end.

Fixpoint omap_set {V} (k : ID) (v : V) (m : list (ID * V)) : list (ID * V) :=
  match m with
  | [] => [(k, v)]
  | (k', v') :: rest =>
      if String.eqb k' k then (k, v) :: rest
      else (k', v') :: omap_set k v rest
  end.

(** [projectMap.get(id)?.name || "Unassigned"] *)
Definition projectNameOf (state : AppState) (id : ID) : string :=
  or_string (projectMap state !! id ≫= fun p => Some (Project.name p)) "Unassigned".


(** The body of [for (const e of invoiceEntries)]. *)
Definition invoiceLines_step (state : AppState) (map : list (ID * LineAcc))
    (e : TimeEntry.t) : list (ID * LineAcc) :=
  let rate := rateFor state (Some (TimeEntry.projectId e)) (Some (TimeEntry.clientId e)) in
  let hours := hoursFromMs (TimeEntry.durationMs e) in
  let projectName := projectNameOf state (TimeEntry.projectId e) in
  let prev :=
    match omap_get (TimeEntry.projectId e) map with
    | Some v => v
    | None => mkAcc 0 rate projectName
    end in
  omap_set (TimeEntry.projectId e)
    (mkAcc (acc_hours prev + hours)%float (or_num rate (acc_rate prev)) projectName)
    map.

Definition invoiceLines_map (state : AppState) (invoiceEntries : list TimeEntry.t)
  : list (ID * LineAcc) :=
  List.fold_left (invoiceLines_step state) invoiceEntries [].

Definition lineOf (kv : ID * LineAcc) : LineItem.t :=
  let '(projectId, v) := kv in
  LineItem.mk
    projectId
    ("Work on " ++ acc_name v)
    (toFixed2 (acc_hours v))
    (or_num (acc_rate v) 0)
    (toFixed2 (acc_hours v * or_num (acc_rate v) 0)%float).

Definition invoiceLines (state : AppState) (invoiceEntries : list TimeEntry.t)
  : list LineItem.t :=
  List.map lineOf (invoiceLines_map state invoiceEntries).

(** [invoiceLines.reduce((sum, l) => sum + l.amount, 0)] *)
Definition invoiceSubtotal (lines : list LineItem.t) : float :=
  List.fold_left (fun sum l => (sum + LineItem.amount l)%float) lines 0%float.

Definition invoiceTax (subtotal taxRate : float) : float :=
  toFixed2 (subtotal * (taxRate / 100))%float.

Definition invoiceTotal (subtotal tax : float) : float :=
  toFixed2 (subtotal + tax)%float.

(** [s.padStart(4, "0")] *)
Definition padStart4 (s : string) : string :=
  String.string_of_list_ascii
    (List.repeat "0"%char (4 - String.length s)%nat) ++ s.

(** The invoice form of [Home]: [invoiceClient], [invoiceFrom],
    [invoiceTo], [taxRate]. *)
Record InvoiceForm := mkInvoiceForm {
  invoiceClient : option ID;
  invoiceFrom : option IsoDate;
  invoiceTo : option IsoDate;
  taxRate : float
}.

(** [createInvoice]: [Some] is the invoice dispatched with [ADD_INVOICE],
    [None] the [return] after the alert that no client is selected. *)
Definition createInvoice (env : Env) (state : AppState) (form : InvoiceForm)
  : option Invoice.t :=
  match invoiceClient form with
  | Some (String a r) =>
      let lines :=
        invoiceLines state
          (invoiceEntries state (invoiceClient form) (invoiceFrom form) (invoiceTo form)) in
      let subtotal := invoiceSubtotal lines in
      let tax := invoiceTax subtotal (taxRate form) in
      let total := invoiceTotal subtotal tax in
      Some (Invoice.mk
              (uid env "inv")
              ("INV-" ++ pretty (fullYear env) ++ "-"
                 ++ padStart4 (pretty (List.length (invoices state) + 1)%nat))
              (String a r)
              (today env)
              (invoiceTo form)
              (Some (taxRate form))
              draft
              lines
              (toFixed2 subtotal)
              (toFixed2 tax)
              (toFixed2 total))
  | _ => None
  end.

Definition createInvoice_state (env : Env) (state : AppState) (form : InvoiceForm)
  : AppState :=
  match createInvoice env state form with
  | Some invoice => reducer env state (ADD_INVOICE invoice)
  | None => state
  end.

(** ** CSV export: [wrap], [exportEntriesCSV] *)

Definition dquote : ascii := "034"%char.
Definition comma : ascii := ","%char.
Definition newline : ascii := "010"%char.

(** The character class of [wrap]'s regular expression: quote, comma, line
    feed. *)
Definition special (c : ascii) : bool :=
  Ascii.eqb c dquote || Ascii.eqb c comma || Ascii.eqb c newline.

(** The regular expression's [test]: some character of [s] is in the
    class. *)
Fixpoint needs_wrap (s : string) : bool :=
  match s with
  | EmptyString => false
  | String c r => special c || needs_wrap r
  end.

(** [s.replaceAll(quote, quote + quote)] *)
Fixpoint double_quotes (s : string) : string :=
  match s with
  | EmptyString => EmptyString
  | String c r =>
      if Ascii.eqb c dquote then String dquote (String dquote (double_quotes r))
      else String c (double_quotes r)
  end.

Definition wrap (s : string) : string :=
  if needs_wrap s
  then String dquote (double_quotes s ++ String dquote EmptyString)
  else s.

(** [parts.join(sep)] *)
Fixpoint join (sep : string) (parts : list string) : string :=
  match parts with
  | [] => EmptyString
  | [x] => x
  | x :: rest => x ++ sep ++ join sep rest
  end.

(** *** [Date.prototype.toISOString]

    [YYYY-MM-DDTHH:mm:ss.sssZ] in UTC, the year with a sign and six digits
    outside 0..9999.  (The [RangeError] beyond 8.64e15 ms from the epoch is
    not modelled.) *)

Definition digit (n : Z) : ascii :=
  ascii_of_nat (48 + Z.to_nat (n mod 10)).

Definition digits2 (n : Z) : string :=
  String (digit (n / 10)) (String (digit n) EmptyString).

Definition digits3 (n : Z) : string :=
  String (digit (n / 100)) (digits2 n).

Definition digits4 (n : Z) : string :=
  String (digit (n / 1000)) (digits3 n).

Definition digits6 (n : Z) : string :=
  String (digit (n / 100000)) (String (digit (n / 10000)) (digits4 n)).

(** The calendar date of a day counted from 1970-01-01. *)
Definition civil_from_days (days : Z) : IsoDate :=
  let z := days + 719468 in
  let era := z / 146097 in
  let doe := z - era * 146097 in
  let yoe := (doe - doe / 1460 + doe / 36524 - doe / 146096) / 365 in
  let doy := doe - (365 * yoe + yoe / 4 - yoe / 100) in
  let mp := (5 * doy + 2) / 153 in
  let d := doy - (153 * mp + 2) / 5 + 1 in
  let m := if mp <? 10 then mp + 3 else mp - 9 in
  let y := yoe + era * 400 in
  mkDate (if m <=? 2 then y + 1 else y) m d.

Definition year_text (y : Z) : string :=
  if (0 <=? y) && (y <=? 9999) then digits4 y
  else String (if y <? 0 then "-"%char else "+"%char) (digits6 (Z.abs y)).

Definition toISOString (t : Z) : string :=
  let date := civil_from_days (t / msPerDay) in
  let ms := t mod msPerDay in
  year_text (year date) ++ "-" ++ digits2 (month date) ++ "-" ++ digits2 (day date)
    ++ "T" ++ digits2 (ms / 3600000) ++ ":" ++ digits2 (ms / 60000 mod 60)
    ++ ":" ++ digits2 (ms / 1000 mod 60) ++ "." ++ digits3 (ms mod 1000) ++ "Z".




Section ExportCSV.

(** [String(x)] for the numbers that [join] turns into text: the shortest
    decimal that reads back as [x], a parameter here. *)
Variable Number_toString : float -> string.




End ExportCSV.

(** *** A standard reader of delimited text

    The reader the export is measured against, written after RFC 4180 with
    the line feed the exporter emits as record separator: fields are
    separated by commas and records by line feeds; a field that opens with a
    quote runs to its closing quote, two quotes inside it standing for one;
    a quote inside a bare field, text after a closing quote and a missing
    closing quote are errors. *)






(** [String(x)] for a number of moderate size with at most two decimals,
    as the hours and amounts of the export are: the integer part, then the
    hundredths without trailing zeros. *)
Definition show_hundredths (x : float) : string :=
  match Prim2SF x with
  | S754_finite s m e =>
      let a := if 0 <=? e then Z.pos m * 2 ^ e * 100 else hundredths_of m e in
      let frac := a mod 100 in
      (if s then "-" else EmptyString) ++ pretty (a / 100)
        ++ (if frac =? 0 then EmptyString
            else if frac mod 10 =? 0 then "." ++ String (digit (frac / 10)) EmptyString
            else "." ++ digits2 frac)
  | S754_zero _ => "0"
  | S754_nan => "NaN"
  | S754_infinity s => if s then "-Infinity" else "Infinity"
  end.

(** ** The rest of [Home]: display helpers, reports, dialogs, events *)

(** [s.padStart(2, "0")] *)
Definition padStart2 (s : string) : string :=
  String.string_of_list_ascii
    (List.repeat "0"%char (2 - String.length s)%nat) ++ s.

(** [msToHMS].  [Math.floor] of a quotient is [Z.div], [%] is [Z.rem], which
    takes the sign of the dividend; [String(v)] of an integer is its decimal
    text.  (The quotients of the source are binary64 quotients; for
    integers below 2^52 their floors are the exact ones.) *)
Definition msToHMS (ms : Z) : string :=
  let totalSec := ms / 1000 in
  let h := totalSec / 3600 in
  let m := Z.rem totalSec 3600 / 60 in
  let s := Z.rem totalSec 60 in
  join ":" (List.map (fun v => padStart2 (pretty v)) [h; m; s]).

(** [state.runningTimer ? Date.now() - state.runningTimer.start : 0] *)
Definition currentDuration (state : AppState) (now : Z) : Z :=
  match runningTimer state with
  | Some t => now - Timer.start t
  | None => 0
  end.

(** [state.entries.slice(0, 10)] *)
Definition recent (state : AppState) : list TimeEntry.t :=
  List.firstn 10 (entries state).

(** The loop shared by [byClient] and [byProject]:
    [map.set(k, (map.get(k) || 0) + e.durationMs)], read back in insertion
    order as the rows [{ key, dur }].  (Durations are whole milliseconds;
    their sums are exact below 2^53.) *)
Definition aggregate_step (key : TimeEntry.t -> ID) (map : list (ID * Z))
    (e : TimeEntry.t) : list (ID * Z) :=
  omap_set (key e) (or_int (omap_get (key e) map) 0 + TimeEntry.durationMs e) map.

Definition aggregate (key : TimeEntry.t -> ID) (es : list TimeEntry.t)
  : list (ID * Z) :=
  List.fold_left (aggregate_step key) es [].

Definition byClient (state : AppState) (fromDate toDate : option IsoDate)
  : list (ID * Z) :=
  aggregate TimeEntry.clientId (filteredEntries state fromDate toDate).

Definition byProject (state : AppState) (fromDate toDate : option IsoDate)
  : list (ID * Z) :=
  aggregate TimeEntry.projectId (filteredEntries state fromDate toDate).

(** The fields of [ClientDialog] and of [ProjectDialog]. *)
Record ClientForm := mkClientForm {
  cf_name : string;
  cf_email : string;
  cf_rate : float;
  cf_active : bool
}.

Record ProjectForm := mkProjectForm {
  pf_name : string;
  pf_clientId : option ID;
  pf_rate : float;
  pf_archived : bool
}.

(** [rate || undefined] *)
Definition rate_or_undefined (rate : float) : option float :=
  if truthy_num rate then Some rate else None.

(** What a click in [Home] or in one of its dialogs asks for. *)
Inductive Event :=
| ClickStart (form : TimerForm) (now : Z)
| ClickStop (now : Z)
| ClickReset
| SaveClient (client : option Client.t) (form : ClientForm)
| SaveProject (project : option Project.t) (form : ProjectForm)
| SaveEntry (entry : option TimeEntry.t) (form : EntryForm)
| ClickDeleteClient (id : ID)
| ClickDeleteProject (id : ID)
| ClickDeleteEntry (id : ID)
| ClickDeleteInvoice (id : ID)
| ClickCreateInvoice (form : InvoiceForm).

Section Dialogs.

(** [String.prototype.trim], a parameter. *)
Variable trim : string -> string.

(** The [onClick] of [ClientDialog]'s button: [Some c] is the client handed
    to [onSave], [None] the [return] on a blank name. *)
Definition ClientDialog_save (env : Env) (client : option Client.t)
    (form : ClientForm) : option Client.t :=
  match trim (cf_name form) with
  | EmptyString => None
  | String a r =>
      match client with
      | Some client =>
          Some (Client.mk (Client.id client) (String a r)
                          (Some (trim (cf_email form))) (Some (cf_rate form))
                          (Client.color client) (cf_active form))
      | None =>
          Some (Client.mk (uid env "client") (String a r)
                          (Some (trim (cf_email form))) (Some (cf_rate form))
                          None (cf_active form))
      end
  end.

(** The [onClick] of [ProjectDialog]'s button. *)
Definition ProjectDialog_save (env : Env) (project : option Project.t)
    (form : ProjectForm) : option Project.t :=
  match trim (pf_name form), pf_clientId form with
  | String a r, Some (String b c) =>
      match project with
      | Some project =>
          Some (Project.mk (Project.id project) (String b c) (String a r)
                           (rate_or_undefined (pf_rate form))
                           (Project.color project) (pf_archived form))
      | None =>
          Some (Project.mk (uid env "project") (String b c) (String a r)
                           (rate_or_undefined (pf_rate form))
                           None (pf_archived form))
      end
  | _, _ => None
  end.

(** [onSave] of the [ClientDialog] and [ProjectDialog] elements in [Home]:
    an update when the dialog was opened on an existing value. *)
Definition onSaveClient (env : Env) (state : AppState)
    (edit : option Client.t) (c : Client.t) : AppState :=
  reducer env state
    (match edit with Some _ => UPDATE_CLIENT c | None => ADD_CLIENT c end).

Definition onSaveProject (env : Env) (state : AppState)
    (edit : option Project.t) (p : Project.t) : AppState :=
  reducer env state
    (match edit with Some _ => UPDATE_PROJECT p | None => ADD_PROJECT p end).

(** One event, handled to completion. *)
Definition handle (env : Env) (state : AppState) (ev : Event) : AppState :=
  match ev with
  | ClickStart form now => startTimer env state form now
  | ClickStop now => stopTimer env state now
  | ClickReset => resetTimer env state
  | SaveClient client form =>
      match ClientDialog_save env client form with
      | Some c => onSaveClient env state client c
      | None => state
      end
  | SaveProject project form =>
      match ProjectDialog_save env project form with
      | Some p => onSaveProject env state project p
      | None => state
      end
  | SaveEntry entry form => saveEntryDialog env state entry form
  | ClickDeleteClient id => reducer env state (DELETE_CLIENT id)
  | ClickDeleteProject id => reducer env state (DELETE_PROJECT id)
  | ClickDeleteEntry id => reducer env state (DELETE_ENTRY id)
  | ClickDeleteInvoice id => reducer env state (DELETE_INVOICE id)
  | ClickCreateInvoice form => createInvoice_state env state form
  end.

(** A session: the events in the order they happen, each with the clock
    and entropy it reads. *)
Definition run (state : AppState) (events : list (Env * Event)) : AppState :=
  List.fold_left (fun s ev => handle (fst ev) s (snd ev)) events state.

End Dialogs.

(** * Vocabulary of the properties *)

(** The UTC calendar day an instant falls on, counted from 1970-01-01. *)
Definition utc_day (t : Z) : Z := t / msPerDay.

(** The range as the specification words it: the start not before
    [rangeStart], the end (the start, for an entry without end) not after
    [rangeEnd]; an unset bound admits everything. *)
Definition not_before (fromDate : option IsoDate) (t : Z) : Prop :=
  match fromDate with
  | Some d => Date_getTime d <= t
  | None => True
  end.

(** The last millisecond of a calendar day: one before the next midnight. *)
Definition last_ms_of_day (d : IsoDate) : Z :=
  (days_from_civil d + 1) * msPerDay - 1.

Definition not_after (toDate : option IsoDate) (t : Z) : Prop :=
  match toDate with
  | Some d => t <= last_ms_of_day d
  | None => True
  end.

(** The element of a list that a [Map] built from it holds under [k]: the
    last one with that key. *)
Fixpoint find_last {A} (key : A -> ID) (k : ID) (l : list A) : option A :=
  match l with
  | [] => None
  | x :: rest =>
      match find_last key k rest with
      | Some y => Some y
      | None => if String.eqb (key x) k then Some x else None
      end
  end.

(** The project, or client, an optional identifier names; no identifier,
    or the empty one, names none. *)
Definition the_project (state : AppState) (projectId : option ID) : option Project.t :=
  match projectId with
  | Some (String a r) => find_last Project.id (String a r) (projects state)
  | _ => None
  end.

Definition the_client (state : AppState) (clientId : option ID) : option Client.t :=
  match clientId with
  | Some (String a r) => find_last Client.id (String a r) (clients state)
  | _ => None
  end.

(** A number: any value but [NaN]. *)
Definition is_number (x : float) : Prop := PrimFloat.eqb x x = true.

(** Zero, of either sign. *)
Definition is_zero (x : float) : Prop := PrimFloat.eqb x 0 = true.

(** The project has an override: a rate that is a number and not zero. *)
Definition project_rate (state : AppState) (projectId : option ID) (r : float) : Prop :=
  exists p, the_project state projectId = Some p
            /\ Project.rate p = Some r /\ is_number r /\ ~ is_zero r.

(** The client has a default: a rate that is a number. *)
Definition client_rate (state : AppState) (clientId : option ID) (r : float) : Prop :=
  exists c, the_client state clientId = Some c
            /\ Client.rate c = Some r /\ is_number r.
















(** A state without dangling references: every project's client is
    stored, and every entry's client and project are stored, the project
    being one of that client. *)
Definition has_client (state : AppState) (id : ID) : bool :=
  List.existsb (fun c => String.eqb (Client.id c) id) (clients state).

Definition has_project_of (state : AppState) (projectId clientId : ID) : bool :=
  List.existsb
    (fun p => String.eqb (Project.id p) projectId
              && String.eqb (Project.clientId p) clientId)
    (projects state).

Definition no_dangling (state : AppState) : bool :=
  List.forallb (fun p => has_client state (Project.clientId p)) (projects state)
  && List.forallb
       (fun e => has_client state (TimeEntry.clientId e)
                 && has_project_of state (TimeEntry.projectId e) (TimeEntry.clientId e))
       (entries state).

(** An entry as the program makes them: it has an end, its duration is not
    negative, and unless the end is the instant [0] the duration is the
    clamped difference of end and start. *)
Definition entry_ok (e : TimeEntry.t) : bool :=
  (0 <=? TimeEntry.durationMs e)
  && match TimeEntry.end_ e with
     | Some x =>
         (x =? 0)
         || (TimeEntry.durationMs e =? Z.max 0 (x - TimeEntry.start e))
     | None => false
     end.

Definition is_draft (i : Invoice.t) : bool :=
  match Invoice.status i with
  | draft => true
  | _ => false
  end.

(** The keys of a list in the order of their first appearance. *)
Fixpoint first_seen (l : list ID) : list ID :=
  match l with
  | [] => []
  | k :: r => k :: List.filter (fun x => id_neqb x k) (first_seen r)
  end.

(** The tracked time of a list of entries, and of those of one key. *)
Definition total_ms (es : list TimeEntry.t) : Z :=
  List.fold_right (fun e a => TimeEntry.durationMs e + a) 0 es.

Definition time_of (key : TimeEntry.t -> ID) (k : ID) (es : list TimeEntry.t) : Z :=
  total_ms (List.filter (fun e => String.eqb (key e) k) es).

Definition sum_rows (rows : list (ID * Z)) : Z :=
  List.fold_right (fun r a => snd r + a) 0 rows.

(** The number a text of decimal digits stands for. *)
Definition digit_value (c : ascii) : Z := Z.of_nat (nat_of_ascii c) - 48.

Fixpoint decimal_value (s : string) : Z :=
  match s with
  | EmptyString => 0
  | String c r => digit_value c * 10 ^ Z.of_nat (String.length r) + decimal_value r
  end.

(** ** Sample data *)

Definition env0 : Env := mkEnv "k3j9x2ab" "lrf1o5c0" 2024 "2024-01-20".

Definition acme : Client.t :=
  Client.mk "client_acme" "Acme" None (Some 100%float) None true.
Definition site : Project.t :=
  Project.mk "project_site" "client_acme" "Site" None None false.

Definition timer_morning : Timer.t :=
  Timer.mk (Some "client_acme") (Some "project_site") (Some "standup") true 1705309200000.

Definition state_running : AppState :=
  mkState [acme] [site] [] [] (Some timer_morning).

Definition form_other : TimerForm :=
  mkTimerForm None None "second attempt" false.

(** The text [persistState] wrote for [state_running]; its bytes do not
    matter, only that [JSON.parse] returns the snapshot. *)
Definition stored_running : StoredItem :=
  ItemText "{...}" (Some (persistState state_running)).

Definition entry_tracked : TimeEntry.t :=
  TimeEntry.mk "entry_k3j9x2ab_lrf1o5c0" "client_acme" "project_site"
               1705309200000 (Some 1705312800000) 3600000
               (Some "standup") (Some []) true.

(** The dialog filled with a start one hour before the epoch and an end at
    the epoch itself. *)
Definition form_until_epoch : EntryForm :=
  mkEntryForm (Some "client_acme") (Some "project_site")
              (Some (-3600000)) (Some 0) "archive" true.

Definition state_tracked : AppState :=
  mkState [acme] [site] [entry_tracked] [] None.

Definition client_50 : Client.t :=
  Client.mk "client_fifty" "Fifty" None (Some 50%float) None true.
Definition project_75 : Project.t :=
  Project.mk "project_override" "client_fifty" "Override" (Some 75%float) None false.
Definition project_norate : Project.t :=
  Project.mk "project_plain" "client_fifty" "Plain" None None false.
Definition state_rates : AppState :=
  mkState [client_50] [project_75; project_norate] [] [] None.


Definition form_acme_10 : InvoiceForm :=
  mkInvoiceForm (Some "client_acme") None None 10%float.

Definition one_hour : TimeEntry.t :=
  TimeEntry.mk "entry_hour" "client_acme" "project_site"
               1705309200000 (Some 1705312800000) 3600000 None (Some []) true.
Definition state_one_hour : AppState :=
  mkState [acme] [site] [one_hour] [] None.

(** One client, two projects with their own rates, an hour on each. *)
Definition project_a : Project.t :=
  Project.mk "project_a" "client_acme" "Audit" (Some (cents 43703)) None false.
Definition project_b : Project.t :=
  Project.mk "project_b" "client_acme" "Backup" (Some (cents 10232)) None false.
Definition hour_on_a : TimeEntry.t :=
  TimeEntry.mk "entry_on_a" "client_acme" "project_a"
               1705309200000 (Some 1705312800000) 3600000 None (Some []) true.
Definition hour_on_b : TimeEntry.t :=
  TimeEntry.mk "entry_on_b" "client_acme" "project_b"
               1705395600000 (Some 1705399200000) 3600000 None (Some []) true.
Definition state_two_rates : AppState :=
  mkState [acme] [project_a; project_b] [hour_on_a; hour_on_b] [] None.

(** One project at 62.5, entries of 0.24 and of 2.65 hours. *)
Definition project_quarter : Project.t :=
  Project.mk "project_q" "client_acme" "Quarter" (Some (cents 6250)) None false.
Definition entry_024h : TimeEntry.t :=
  TimeEntry.mk "entry_024" "client_acme" "project_q"
               1705309200000 (Some 1705310064000) 864000 None (Some []) true.
Definition entry_265h : TimeEntry.t :=
  TimeEntry.mk "entry_265" "client_acme" "project_q"
               1705395600000 (Some 1705405140000) 9540000 None (Some []) true.
Definition state_quarter_rate : AppState :=
  mkState [acme] [project_quarter] [entry_024h; entry_265h] [] None.



Definition form_manual : EntryForm :=
  mkEntryForm (Some "client_acme") (Some "project_site")
              (Some 1705395600000) (Some 1705392000000) "backdated" true.

(** A session: a timer started and stopped, then a manual entry whose end
    lies before its start. *)
Definition session_work : list (Env * Event) :=
  [ (env0, ClickStart (mkTimerForm (Some "client_acme") (Some "project_site") "call" true)
                      1705309200000);
    (env0, ClickStop 1705312800000);
    (mkEnv "q7w1e5rt" "lrf2a0b1" 2024 "2024-01-20", SaveEntry None form_manual) ].

(** The same, followed by an invoice and the deletion of its client. *)
Definition session : list (Env * Event) :=
  (session_work
   ++ [ (mkEnv "z2x8c4vb" "lrf2a0b2" 2024 "2024-01-20", ClickCreateInvoice form_acme_10);
        (env0, ClickDeleteClient "client_acme") ])%list.

Definition state_clients_only : AppState :=
  mkState [acme] [site] [] [] None.

Definition form_project_norate : ProjectForm :=
  mkProjectForm "Website" (Some "client_fifty") 0 false.

(** * Properties *)

(** ** The built-in functions, on known values *)

(** [(1.005).toFixed(2)] is [1.00], the binary number written 1.005 lying
    below the tie; 0.125 is a tie and goes up, away from zero for a negative
    number; 0.1 + 0.2 is not 0.3, and rounds to it. *)
Example toFixed2_known_values :
  toFixed2 (of_Z 1005 / 1000)%float = 1%float
  /\ toFixed2 (of_Z 125 / 1000)%float = cents 13
  /\ toFixed2 (- (of_Z 125 / 1000))%float = cents (-13)
  /\ (cents 10 + cents 20)%float <> cents 30
  /\ toFixed2 (cents 10 + cents 20)%float = cents 30
  /\ toFixed2 (- 0)%float = 0%float
  /\ toFixed2 infinity = infinity
  /\ cents 150 = (of_Z 3 / 2)%float
  /\ hoursFromMs 3600000 = 1%float
  /\ hoursFromMs 5400000 = cents 150.
Proof.
  repeat split; try reflexivity.
  vm_compute. discriminate.
Qed.

Example dates_known_values :
  Date_getTime (mkDate 1970 1 1) = 0
  /\ Date_getTime (mkDate 2024 1 15) = 1705276800000
  /\ Date_getTime (mkDate 2024 3 1) - Date_getTime (mkDate 2024 2 28) = 2 * msPerDay
  /\ toISOString 1705276800000 = "2024-01-15T00:00:00.000Z"
  /\ toISOString 1709211723004 = "2024-02-29T13:02:03.004Z"
  /\ toISOString (-1) = "1969-12-31T23:59:59.999Z"
  /\ civil_from_days (days_from_civil (mkDate 2000 2 29)) = mkDate 2000 2 29.
Proof. repeat split. Qed.

Example texts_known_values :
  uid env0 "entry" = "entry_k3j9x2ab_lrf1o5c0"
  /\ padStart4 "7" = "0007"
  /\ padStart4 "12345" = "12345"
  /\ join "," ["a"; "b"; "c"] = "a,b,c"
  /\ wrap "plain text" = "plain text"
  /\ wrap "a,b" = String dquote ("a,b" ++ String dquote EmptyString)
  /\ show_hundredths (cents 17) = "0.17"
  /\ show_hundredths (cents 150) = "1.5"
  /\ show_hundredths 100%float = "100".
Proof. repeat split. Qed.

(** ** Timer *)

(** The bare [START_TIMER] case installs its payload whatever the state
    holds; the guard against a double start is the first line of
    [startTimer], the only place that dispatches the action. *)
Lemma reducer_START_TIMER env state payload :
  runningTimer (reducer env state (START_TIMER payload)) = Some payload.
Proof. reflexivity. Qed.

(** C1. While a timer is active, an attempt to start a timer changes
    nothing: the state, hence the active timer and its start instant, is
    the one from before, whatever the dashboard form selects. *)
Theorem startTimer_while_running_is_noop :
  forall env state form now t,
    runningTimer state = Some t ->
    startTimer env state form now = state
    /\ runningTimer (startTimer env state form now) = Some t
    /\ option_map Timer.start (runningTimer (startTimer env state form now))
       = Some (Timer.start t).
Proof.
  intros env state form now t Hrun.
  assert (Hsame : startTimer env state form now = state).
  { unfold startTimer. now rewrite Hrun. }
  rewrite Hsame, Hrun. repeat split.
Qed.

Lemma startTimer_while_running_is_noop_witness :
  runningTimer state_running = Some timer_morning
  /\ startTimer env0 state_running form_other 1705312800000 = state_running
  /\ runningTimer (startTimer env0 state_running form_other 1705312800000)
     = Some timer_morning
  /\ option_map Timer.start
       (runningTimer (startTimer env0 state_running form_other 1705312800000))
     = Some 1705309200000.
Proof.
  split; [reflexivity |].
  apply (startTimer_while_running_is_noop env0 state_running form_other
           1705312800000 timer_morning).
  reflexivity.
Defined.

(** When no timer is active the attempt installs one that starts now. *)
Lemma startTimer_when_idle env state form now :
  runningTimer state = None ->
  option_map Timer.start (runningTimer (startTimer env state form now)) = Some now.
Proof. intros H. unfold startTimer. now rewrite H. Qed.

(** C2. Stopping without an active timer changes nothing.  Stopping an
    active timer clears it and puts exactly one new entry in front of the
    entries, which are otherwise as before, as are clients, projects and
    invoices; the entry runs from the timer's start to the given end, lasts
    [max 0 (end - start)], carries the timer's client and project when they
    were selected and the sentinels when they were not.  The [stopTimer]
    handler does the same. *)
Theorem stopTimer_spec :
  forall env state end_,
    (runningTimer state = None ->
       reducer env state (STOP_TIMER end_) = state)
    /\ (forall t, runningTimer state = Some t ->
          exists entry,
            reducer env state (STOP_TIMER end_)
            = mkState (clients state) (projects state)
                      (entry :: entries state) (invoices state) None
            /\ TimeEntry.id entry = uid env "entry"
            /\ TimeEntry.durationMs entry = Z.max 0 (end_ - Timer.start t)
            /\ 0 <= TimeEntry.durationMs entry
            /\ TimeEntry.start entry = Timer.start t
            /\ TimeEntry.end_ entry = Some end_
            /\ TimeEntry.billable entry = Timer.billable t
            /\ TimeEntry.notes entry = Timer.notes t
            /\ (Timer.clientId t = None ->
                  TimeEntry.clientId entry = "unassigned_client")
            /\ (Timer.projectId t = None ->
                  TimeEntry.projectId entry = "unassigned_project")
            /\ (forall c, Timer.clientId t = Some c -> c <> EmptyString ->
                  TimeEntry.clientId entry = c)
            /\ (forall p, Timer.projectId t = Some p -> p <> EmptyString ->
                  TimeEntry.projectId entry = p))
    /\ stopTimer env state end_ = reducer env state (STOP_TIMER end_).
Proof.
  intros env state end_. split; [| split].
  - intros Hnone. simpl. now rewrite Hnone.
  - intros t Hrun. simpl. rewrite Hrun. eexists. split; [reflexivity |].
    simpl. repeat split; try lia.
    + intros ->. reflexivity.
    + intros ->. reflexivity.
    + intros c -> Hc. destruct c; [congruence | reflexivity].
    + intros p -> Hp. destruct p; [congruence | reflexivity].
  - unfold stopTimer. simpl. destruct (runningTimer state); reflexivity.
Qed.

(** ** Loading the persisted snapshot *)

(** C3, as stated, fails: a snapshot persisted while a timer was running
    comes back with that timer, not with a cleared one. *)
Lemma loadState_restores_running_timer :
  runningTimer (loadState true stored_running) = Some timer_morning
  /\ runningTimer (loadState true stored_running) <> None.
Proof. split; [reflexivity | discriminate]. Qed.

(** C3, amended. Loading never fails.  Without a window, without a stored
    item, with an empty stored text or with a text [JSON.parse] rejects, the
    result is the empty initial state.  With a text that parses, the result
    has the four collections of the snapshot, and its timer is the persisted
    one: cleared only when the snapshot has no [runningTimer] property or a
    [null] one. *)
Theorem loadState_spec :
  forall has_window item,
    ((has_window = false \/ item = ItemNull
      \/ (exists parsed, item = ItemText EmptyString parsed)
      \/ (exists raw, item = ItemText raw None)) ->
       loadState has_window item = emptyState)
    /\ (forall raw p,
          has_window = true -> raw <> EmptyString -> item = ItemText raw (Some p) ->
          let s := loadState has_window item in
          clients s = snap_clients p
          /\ projects s = snap_projects p
          /\ entries s = snap_entries p
          /\ invoices s = snap_invoices p
          /\ runningTimer s
             = match snap_runningTimer p with
               | Some (Some t) => Some t
               | Some None | None => None
               end).
Proof.
  intros has_window item. split.
  - intros [-> | [-> | [[parsed ->] | [raw ->]]]].
    + reflexivity.
    + now destruct has_window.
    + now destruct has_window.
    + destruct has_window; [| reflexivity].
      destruct raw; reflexivity.
  - intros raw p -> Hraw ->. destruct raw as [| a raw]; [congruence |].
    simpl. repeat split. now destruct (snap_runningTimer p) as [[t |] |].
Qed.

(** What one state hands to storage comes back unchanged. *)
Lemma loadState_persistState state raw :
  raw <> EmptyString ->
  loadState true (ItemText raw (Some (persistState state))) = state.
Proof.
  intros Hraw. destruct raw as [| a raw]; [congruence |].
  now destruct state.
Qed.

(** ** Cascading delete of a client *)

Lemma id_neqb_true a b : id_neqb a b = true <-> a <> b.
Proof.
  unfold id_neqb. destruct (String.eqb_spec a b); simpl; split; congruence.
Qed.

Lemma In_filter_id_neqb {A} (key : A -> ID) (k : ID) (l : list A) (x : A) :
  In x (List.filter (fun y => id_neqb (key y) k) l) <-> In x l /\ key x <> k.
Proof. rewrite filter_In, id_neqb_true. reflexivity. Qed.

(** The reducer's boolean filter keeps what stdpp's [filter] keeps for the
    proposition [key y <> k]: the same elements, as often, in the same
    order. *)
Lemma filter_id_neqb_filter {A} (key : A -> ID) (k : ID) (l : list A) :
  List.filter (fun y => id_neqb (key y) k) l = filter (fun y => key y <> k) l.
Proof.
  induction l as [| x l IH]; [reflexivity |].
  cbn [List.filter]. rewrite filter_cons, IH.
  destruct (decide (key x <> k)) as [Hne | Heq].
  - apply id_neqb_true in Hne. now rewrite Hne.
  - destruct (id_neqb (key x) k) eqn:Hk; [| reflexivity].
    apply id_neqb_true in Hk. contradiction.
Qed.

(** C5. Deleting client [C] removes the clients with identifier [C], the
    projects of [C] and the entries of [C], and nothing else: every other
    client, project and entry stays, as often and in the same order; the
    invoices, those of [C] included, and the timer are as before. *)
Theorem deleteClient_exact :
  forall env state C,
    let s := reducer env state (DELETE_CLIENT C) in
    (forall c, In c (clients s) <-> In c (clients state) /\ Client.id c <> C)
    /\ (forall p, In p (projects s)
                  <-> In p (projects state) /\ Project.clientId p <> C)
    /\ (forall e, In e (entries s)
                  <-> In e (entries state) /\ TimeEntry.clientId e <> C)
    /\ clients s = filter (fun c => Client.id c <> C) (clients state)
    /\ projects s = filter (fun p => Project.clientId p <> C) (projects state)
    /\ entries s = filter (fun e => TimeEntry.clientId e <> C) (entries state)
    /\ invoices s = invoices state
    /\ runningTimer s = runningTimer state.
Proof.
  intros env state C. simpl.
  split; [intros c; apply In_filter_id_neqb |].
  split; [intros p; apply In_filter_id_neqb |].
  split; [intros e; apply In_filter_id_neqb |].
  split; [apply filter_id_neqb_filter |].
  split; [apply filter_id_neqb_filter |].
  split; [apply filter_id_neqb_filter |].
  split; reflexivity.
Qed.

(** ** Editing an entry *)

(** An edit never stores a negative duration. *)
Lemma EntryDialog_save_duration_nonneg env entry form e :
  EntryDialog_save env entry form = Some e -> 0 <= TimeEntry.durationMs e.
Proof.
  unfold EntryDialog_save. intros H.
  destruct entry as [entry |].
  - injection H as <-. simpl. lia.
  - destruct (dlg_clientId form) as [[| a c] |]; try discriminate.
    destruct (dlg_projectId form) as [[| b p] |]; try discriminate.
    destruct (dlg_start form) as [startMs |]; try discriminate.
    injection H as <-. simpl. lia.
Qed.

(** An edit whose end is not the instant [0] stores the clamped difference
    of the end and the start it stores. *)
Lemma EntryDialog_save_edit_duration env entry form e endMs :
  EntryDialog_save env (Some entry) form = Some e ->
  TimeEntry.end_ e = Some endMs ->
  endMs <> 0 ->
  TimeEntry.durationMs e = Z.max 0 (endMs - TimeEntry.start e).
Proof.
  unfold EntryDialog_save. intros H Hend Hnz.
  injection H as <-. simpl in *. injection Hend as Hend.
  rewrite Hend. unfold or_zero.
  destruct (Z.eqb_spec endMs 0); [contradiction | reflexivity].
Qed.

(** A new entry always stores the clamped difference. *)
Lemma EntryDialog_save_new_duration env form e :
  EntryDialog_save env None form = Some e ->
  exists endMs, TimeEntry.end_ e = Some endMs
    /\ TimeEntry.durationMs e = Z.max 0 (endMs - TimeEntry.start e).
Proof.
  unfold EntryDialog_save. intros H.
  destruct (dlg_clientId form) as [[| a c] |]; try discriminate.
  destruct (dlg_projectId form) as [[| b p] |]; try discriminate.
  destruct (dlg_start form) as [startMs |]; try discriminate.
  injection H as <-. simpl. eexists. split; reflexivity.
Qed.

(** [UPDATE_ENTRY] puts the payload in the place of every entry with its
    identifier and leaves the others. *)
Lemma reducer_UPDATE_ENTRY env state e x :
  In x (entries (reducer env state (UPDATE_ENTRY e))) ->
  x = e \/ (In x (entries state) /\ TimeEntry.id x <> TimeEntry.id e).
Proof.
  simpl. unfold replace_by_id. rewrite in_map_iff.
  intros [y [Hy Hin]].
  destruct (String.eqb_spec (TimeEntry.id y) (TimeEntry.id e)).
  - now left.
  - right. subst. now split.
Qed.

(** C10, at the failing input.  An edit that moves an entry to run from one
    hour before the epoch to the epoch stores start [-3600000], end [0] and
    duration [0], where the end minus the start is [3600000]: the handler
    reads the end [0] as missing ([endMs || startMs]) and takes the start in
    its place. *)
Theorem edit_until_epoch_stores_zero_duration :
  exists e,
    EntryDialog_save env0 (Some entry_tracked) form_until_epoch = Some e
    /\ entries (saveEntryDialog env0 state_tracked (Some entry_tracked) form_until_epoch)
       = [e]
    /\ TimeEntry.start e = -3600000
    /\ TimeEntry.end_ e = Some 0
    /\ TimeEntry.durationMs e = 0
    /\ Z.max 0 (0 - TimeEntry.start e) = 3600000.
Proof. eexists. repeat split. Qed.

(** ** The date-range filter *)

Lemma Date_getTime_is_midnight d :
  utc_day (Date_getTime d) = days_from_civil d
  /\ Date_getTime d mod msPerDay = 0.
Proof.
  unfold utc_day, Date_getTime. split.
  - apply Z.div_mul. discriminate.
  - apply Z.mod_mul. discriminate.
Qed.

(** The lower bound of a range admits the instants of its day and of the
    days after it. *)
Lemma lower_bound_by_day d t :
  Date_getTime d <= t <-> days_from_civil d <= utc_day t.
Proof.
  unfold utc_day, Date_getTime, msPerDay. split; intros H.
  - apply Z.div_le_lower_bound; lia.
  - pose proof (Z.mul_div_le t (24 * 3600 * 1000) ltac:(lia)). nia.
Qed.

(** The upper bound of a range admits the instants of its day, through the
    last millisecond, and of the days before it. *)
Lemma upper_bound_by_day d t :
  t <= Date_getTime d + 24 * 3600 * 1000 - 1 <-> utc_day t <= days_from_civil d.
Proof.
  unfold utc_day, Date_getTime, msPerDay.
  pose proof (Z.mul_div_le t (24 * 3600 * 1000) ltac:(lia)).
  pose proof (Z.mul_succ_div_gt t (24 * 3600 * 1000) ltac:(lia)).
  split; intros Hle; nia.
Qed.

Lemma ext_leb_Finite x y : ext_leb (Finite x) (Finite y) = true <-> x <= y.
Proof. simpl. apply Z.leb_le. Qed.

(** What [in_range] decides, bound by bound. *)
Lemma in_range_iff fromDate toDate e :
  in_range (range_from fromDate) (range_to toDate) e = true
  <-> (forall d, fromDate = Some d -> Date_getTime d <= TimeEntry.start e)
      /\ (forall d, toDate = Some d ->
            end_or_start e <= Date_getTime d + 24 * 3600 * 1000 - 1).
Proof.
  unfold in_range. rewrite andb_true_iff.
  destruct fromDate as [f |], toDate as [t |]; simpl;
    rewrite ?Z.leb_le; split.
  all: try (intros [H1 H2]; split; intros d Hd; inversion Hd; subst; assumption).
  all: try (intros [H1 H2]; split; intros d Hd; discriminate).
  all: intros [H1 H2]; split; auto.
Qed.

Lemma in_range_spec fromDate toDate e :
  in_range (range_from fromDate) (range_to toDate) e = true
  <-> not_before fromDate (TimeEntry.start e) /\ not_after toDate (end_or_start e).
Proof.
  rewrite in_range_iff. unfold not_before, not_after, last_ms_of_day,
    Date_getTime, msPerDay.
  destruct fromDate as [f |], toDate as [t |]; split; intros [H1 H2]; split;
    try exact I; try (intros d Hd; inversion Hd; subst; lia);
    try (specialize (H1 _ eq_refl); lia);
    try (specialize (H2 _ eq_refl); lia);
    try (intros d Hd; discriminate).
Qed.

(** C7. An entry passes the range filter of the reports, and with the
    client and billable tests that of the invoice, exactly when its start
    is not before the lower bound and its end (its start, when it has no
    end) is not after the upper bound; an unset bound admits everything, and
    a set upper bound reaches through the last millisecond of its calendar
    day (UTC), which is on that day while the next millisecond is not.  In
    particular an entry starting exactly at the lower bound and an entry
    ending exactly at that last millisecond pass. *)
Theorem range_filter_spec :
  forall state fromDate toDate e,
    (In e (filteredEntries state fromDate toDate)
     <-> In e (entries state)
         /\ not_before fromDate (TimeEntry.start e)
         /\ not_after toDate (end_or_start e))
    /\ (forall a r,
          In e (invoiceEntries state (Some (String a r)) fromDate toDate)
          <-> In e (entries state)
              /\ TimeEntry.clientId e = String a r
              /\ TimeEntry.billable e = true
              /\ not_before fromDate (TimeEntry.start e)
              /\ not_after toDate (end_or_start e))
    /\ (forall d, utc_day (Date_getTime d) = days_from_civil d
                  /\ utc_day (last_ms_of_day d) = days_from_civil d
                  /\ utc_day (last_ms_of_day d + 1) = days_from_civil d + 1)
    /\ (forall d, In e (entries state) ->
                  fromDate = Some d -> TimeEntry.start e = Date_getTime d ->
                  not_after toDate (end_or_start e) ->
                  In e (filteredEntries state fromDate toDate))
    /\ (forall d, In e (entries state) ->
                  toDate = Some d -> TimeEntry.end_ e = Some (last_ms_of_day d) ->
                  not_before fromDate (TimeEntry.start e) ->
                  In e (filteredEntries state fromDate toDate)).
Proof.
  intros state fromDate toDate e.
  assert (Hfilt : In e (filteredEntries state fromDate toDate)
     <-> In e (entries state)
         /\ not_before fromDate (TimeEntry.start e)
         /\ not_after toDate (end_or_start e)).
  { unfold filteredEntries. rewrite filter_In, in_range_spec. reflexivity. }
  split; [exact Hfilt |]. split; [| split; [| split]].
  - intros a r. unfold invoiceEntries.
    rewrite filter_In, !andb_true_iff, in_range_spec.
    destruct (String.eqb_spec (TimeEntry.clientId e) (String a r)); intuition congruence.
  - intros d. unfold utc_day, last_ms_of_day, Date_getTime, msPerDay.
    split; [apply Z.div_mul; discriminate |]. split.
    + symmetry. apply Z.div_unique with (r := 24 * 3600 * 1000 - 1); lia.
    + replace ((days_from_civil d + 1) * (24 * 3600 * 1000) - 1 + 1)
        with ((days_from_civil d + 1) * (24 * 3600 * 1000)) by lia.
      apply Z.div_mul. discriminate.
  - intros d Hin -> Hstart Hafter. apply Hfilt. repeat split; try assumption.
    simpl. lia.
  - intros d Hin -> Hend Hbefore. apply Hfilt. repeat split; try assumption.
    unfold end_or_start. rewrite Hend. simpl. lia.
Qed.

(** ** Rates *)

Lemma fold_insert_lookup {A} (key : A -> ID) (k : ID) (l : list A) (m : gmap ID A) :
  List.fold_left (fun m x => <[key x := x]> m) l m !! k
  = match find_last key k l with
    | Some y => Some y
    | None => m !! k
    end.
Proof.
  revert m. induction l as [| x l IH]; intros m; [reflexivity |].
  cbn [List.fold_left find_last]. rewrite IH.
  destruct (find_last key k l); [reflexivity |].
  destruct (String.eqb_spec (key x) k) as [-> | Hne].
  - apply lookup_insert_eq.
  - now apply lookup_insert_ne.
Qed.

Lemma Map_of_lookup {A} (key : A -> ID) (l : list A) (k : ID) :
  Map_of key l !! k = find_last key k l.
Proof.
  unfold Map_of. rewrite fold_insert_lookup.
  destruct (find_last key k l); [reflexivity | apply lookup_empty].
Qed.

Lemma find_last_In {A} (key : A -> ID) (k : ID) (l : list A) (x : A) :
  find_last key k l = Some x -> In x l /\ key x = k.
Proof.
  induction l as [| y l IH]; [discriminate |].
  cbn [find_last]. destruct (find_last key k l) as [z |].
  - intros H. injection H as ->. destruct (IH eq_refl). split; [now right | assumption].
  - destruct (String.eqb_spec (key y) k); [| discriminate].
    intros H. injection H as ->. split; [now left | assumption].
Qed.

(** With identifiers that are unique in the list, the element found is the
    element with that identifier. *)
Lemma find_last_unique {A} (key : A -> ID) (l : list A) (x : A) :
  List.NoDup (List.map key l) -> In x l -> find_last key (key x) l = Some x.
Proof.
  induction l as [| y l IH]; [contradiction |].
  cbn [List.map]. intros Hnd Hin. apply NoDup_cons_iff in Hnd as [Hy Hnd].
  cbn [find_last]. destruct Hin as [-> | Hin].
  - destruct (find_last key (key x) l) as [z |] eqn:Hz.
    + apply find_last_In in Hz as [Hz1 Hz2]. exfalso. apply Hy.
      rewrite <- Hz2. now apply in_map.
    + now rewrite String.eqb_refl.
  - now rewrite (IH Hnd Hin).
Qed.

Lemma get_truthy_projectMap state projectId :
  get_truthy (projectMap state) projectId = the_project state projectId.
Proof.
  destruct projectId as [[| a r] |]; try reflexivity. apply Map_of_lookup.
Qed.

Lemma get_truthy_clientMap state clientId :
  get_truthy (clientMap state) clientId = the_client state clientId.
Proof.
  destruct clientId as [[| a r] |]; try reflexivity. apply Map_of_lookup.
Qed.

Lemma truthy_num_iff x : truthy_num x = true <-> is_number x /\ ~ is_zero x.
Proof.
  unfold truthy_num, is_number, is_zero. rewrite andb_true_iff, negb_true_iff.
  destruct (PrimFloat.eqb x 0); intuition congruence.
Qed.

Lemma truthy_rate_Some r q :
  truthy_rate r = Some q <-> r = Some q /\ is_number q /\ ~ is_zero q.
Proof.
  unfold truthy_rate. rewrite <- truthy_num_iff.
  destruct r as [x |]; [| split; [discriminate | intros [? _]; discriminate]].
  destruct (truthy_num x) eqn:Hx; split.
  - intros H. injection H as ->. now split.
  - now intros [-> _].
  - discriminate.
  - intros [H Hq]. injection H as ->. congruence.
Qed.

(** C8. The effective rate is the project's rate when the project exists
    and its rate is defined and not zero; failing that, the client's rate
    when the client exists and its rate is defined (a client rate of zero
    gives the number zero); failing both, zero.  With a client at 50 and a
    project of it at 75 the rate is 75, and for a project of it without rate
    it is 50. *)
Theorem rateFor_spec :
  forall state projectId clientId,
    (forall r, project_rate state projectId r ->
               rateFor state projectId clientId = r)
    /\ ((forall r, ~ project_rate state projectId r) ->
        forall r, client_rate state clientId r ->
                  rateFor state projectId clientId
                  = if PrimFloat.eqb r 0 then 0%float else r)
    /\ ((forall r, ~ project_rate state projectId r) ->
        (forall r, ~ client_rate state clientId r) ->
        rateFor state projectId clientId = 0%float)
    /\ rateFor state_rates (Some "project_override") (Some "client_fifty") = 75%float
    /\ rateFor state_rates (Some "project_plain") (Some "client_fifty") = 50%float
    /\ rateFor state_rates None None = 0%float.
Proof.
  intros state projectId clientId.
  assert (Hproj : forall r,
    truthy_rate (get_truthy (projectMap state) projectId ≫= Project.rate) = Some r
    <-> project_rate state projectId r).
  { intros r. rewrite truthy_rate_Some, get_truthy_projectMap. unfold project_rate.
    destruct (the_project state projectId) as [p |]; simpl.
    - split.
      + intros [H1 H2]. now exists p.
      + intros [p' [Hp [H1 H2]]]. injection Hp as <-. now split.
    - split; [intros [H _]; discriminate | intros [p' [Hp _]]; discriminate]. }
  unfold rateFor.
  destruct (truthy_rate (get_truthy (projectMap state) projectId ≫= Project.rate))
    as [rp |].
  - assert (Hrp : project_rate state projectId rp) by now apply Hproj.
    split; [| split; [| split; [| repeat split]]].
    + intros r [p [Hp [Hr Hnz]]]. destruct Hrp as [p' [Hp' [Hr' _]]]. congruence.
    + intros Hno. exfalso. exact (Hno rp Hrp).
    + intros Hno. exfalso. exact (Hno rp Hrp).
  - split; [| split; [| split; [| repeat split]]].
    + intros r Hr. apply Hproj in Hr. discriminate.
    + intros _ r [c [Hc [Hr Hnum]]]. rewrite get_truthy_clientMap, Hc. simpl.
      rewrite Hr. simpl. unfold truthy_num. unfold is_number in Hnum.
      rewrite Hnum. now destruct (PrimFloat.eqb r 0).
    + intros _ Hno. rewrite get_truthy_clientMap.
      destruct (the_client state clientId) as [c |] eqn:Hc; [| reflexivity].
      simpl. destruct (Client.rate c) as [r |] eqn:Hr; [| reflexivity].
      simpl. destruct (truthy_num r) eqn:Ht; [| reflexivity].
      exfalso. apply (Hno r). exists c. apply truthy_num_iff in Ht. tauto.
Qed.

(** ** Invoice lines *)



(** *** The insertion-ordered map *)



Lemma omap_set_keys {V} k (v : V) (m : list (ID * V)) :
  List.map fst (omap_set k v m)
  = if existsb (String.eqb k) (List.map fst m)
    then List.map fst m else (List.map fst m ++ [k])%list.
Proof.
  induction m as [| [k' v'] m IH]; [reflexivity |].
  simpl. rewrite (String.eqb_sym k k').
  destruct (String.eqb_spec k' k) as [-> | Hne]; simpl; [reflexivity |].
  rewrite IH. now destruct (existsb (String.eqb k) (List.map fst m)).
Qed.




(** *** What the loop of [invoiceLines] maintains *)






(** ** Two ten-minute entries of one project *)



(** ** Invoice totals *)

(** What [createInvoice] stores, in terms of the two sums it keeps
    unrounded: the hours of a line and the subtotal. *)
Lemma createInvoice_stores env state form inv :
  createInvoice env state form = Some inv ->
  let lines := Invoice.lineItems inv in
  Forall (fun l =>
            exists v, In (LineItem.projectId l, v)
                         (invoiceLines_map state
                            (invoiceEntries state (invoiceClient form)
                               (invoiceFrom form) (invoiceTo form)))
                      /\ LineItem.hours l = toFixed2 (acc_hours v)
                      /\ LineItem.amount l
                         = toFixed2 (acc_hours v * LineItem.rate l)%float)
         lines
  /\ Invoice.subtotal inv = toFixed2 (invoiceSubtotal lines)
  /\ Invoice.tax inv
     = toFixed2 (toFixed2 (invoiceSubtotal lines * (taxRate form / 100))%float)
  /\ Invoice.total inv
     = toFixed2 (toFixed2
         (invoiceSubtotal lines
          + toFixed2 (invoiceSubtotal lines * (taxRate form / 100)))%float).
Proof.
  unfold createInvoice. intros Hmk.
  destruct (invoiceClient form) as [[| a r] |]; try discriminate.
  injection Hmk as <-. cbn [Invoice.lineItems Invoice.subtotal Invoice.tax Invoice.total].
  split; [| repeat split].
  apply List.Forall_forall. intros l Hl.
  unfold invoiceLines in Hl. apply in_map_iff in Hl as [[k v] [<- Hin]].
  exists v. simpl. now repeat split.
Qed.

(** C4, at a failing input.  Two billable hours for one client, one on a
    project at 437.03 and one on a project at 102.32, invoiced with a tax
    rate of 10: the lines amount to 437.03 and 102.32, whose sum in binary64
    is 539.3499999999999; the tax is taken from that sum and stored as
    53.93, the subtotal is stored rounded, as 539.35, and the tax the claim
    requires for the stored subtotal is 53.94. *)
Theorem invoice_tax_from_unrounded_subtotal :
  exists inv l1 l2,
    createInvoice env0 state_two_rates form_acme_10 = Some inv
    /\ Invoice.lineItems inv = [l1; l2]
    /\ LineItem.amount l1 = cents 43703
    /\ LineItem.amount l2 = cents 10232
    /\ PrimFloat.ltb (invoiceSubtotal [l1; l2]) (cents 53935) = true
    /\ Invoice.subtotal inv = cents 53935
    /\ Invoice.taxRate inv = Some 10%float
    /\ Invoice.tax inv = cents 5393
    /\ toFixed2 (Invoice.subtotal inv * 10 / 100)%float = cents 5394
    /\ toFixed2 (Invoice.subtotal inv * (10 / 100))%float = cents 5394
    /\ Invoice.total inv = cents 59328.
Proof. do 3 eexists. repeat split. Qed.

(** The hours of a line are summed unrounded in the same way: entries of
    0.24 and 2.65 hours at a rate of 62.5 make a line of 2.89 hours whose
    amount is stored as 180.62, taken from the sum 2.8899999999999997,
    where 2.89 hours at 62.5 round to 180.63. *)
Lemma line_amount_from_unrounded_hours :
  exists l,
    invoiceLines state_quarter_rate [entry_024h; entry_265h] = [l]
    /\ LineItem.hours l = cents 289
    /\ LineItem.rate l = cents 6250
    /\ LineItem.amount l = cents 18062
    /\ toFixed2 (LineItem.hours l * LineItem.rate l)%float = cents 18063.
Proof. eexists. repeat split. Qed.

(** The scenario of the specification: Acme at 100, one billable hour, tax
    rate 10. *)
Example invoice_acme_one_hour :
  exists inv l,
    createInvoice env0 state_one_hour form_acme_10 = Some inv
    /\ Invoice.lineItems inv = [l]
    /\ LineItem.hours l = 1%float /\ LineItem.rate l = 100%float
    /\ LineItem.amount l = 100%float
    /\ Invoice.subtotal inv = 100%float
    /\ Invoice.tax inv = 10%float
    /\ Invoice.total inv = 110%float
    /\ Invoice.number inv = "INV-2024-0001"
    /\ Invoice.status inv = draft.
Proof. do 2 eexists. repeat split. Qed.

(** ** CSV export *)

Local Arguments String.append : simpl nomatch.














(** *** The texts the exporter writes without [wrap] *)








(** *** The export, cell by cell *)





(** [wrap], by cases. *)
Lemma wrap_spec s :
  (needs_wrap s = true ->
     wrap s = String dquote (double_quotes s ++ String dquote EmptyString))
  /\ (needs_wrap s = false -> wrap s = s).
Proof. unfold wrap. split; intros ->; reflexivity. Qed.

(** * Further properties of the state engine *)

(** ** Deleting *)

(** X1. Deleting project [P] removes the projects with identifier [P] and the
    entries of [P], and nothing else: the other projects and entries stay,
    as often and in the same order; clients, invoices and the timer are as
    before. *)
Theorem deleteProject_exact :
  forall env state P,
    let s := reducer env state (DELETE_PROJECT P) in
    (forall p, In p (projects s) <-> In p (projects state) /\ Project.id p <> P)
    /\ (forall e, In e (entries s)
                  <-> In e (entries state) /\ TimeEntry.projectId e <> P)
    /\ projects s = filter (fun p => Project.id p <> P) (projects state)
    /\ entries s = filter (fun e => TimeEntry.projectId e <> P) (entries state)
    /\ clients s = clients state
    /\ invoices s = invoices state
    /\ runningTimer s = runningTimer state.
Proof.
  intros env state P. simpl.
  split; [intros p; apply In_filter_id_neqb |].
  split; [intros e; apply In_filter_id_neqb |].
  split; [apply filter_id_neqb_filter |].
  split; [apply filter_id_neqb_filter |].
  repeat split.
Qed.

Lemma has_client_iff state id :
  has_client state id = true
  <-> exists c, In c (clients state) /\ Client.id c = id.
Proof.
  unfold has_client. rewrite existsb_exists.
  split; intros [c [Hin Hc]]; exists c; split; try assumption;
    now apply String.eqb_eq.
Qed.

Lemma has_project_of_iff state pid cid :
  has_project_of state pid cid = true
  <-> exists p, In p (projects state)
                /\ Project.id p = pid /\ Project.clientId p = cid.
Proof.
  unfold has_project_of. rewrite existsb_exists.
  split; intros [p [Hin Hp]]; exists p; split; try assumption.
  - apply andb_true_iff in Hp as [H1 H2].
    split; now apply String.eqb_eq.
  - destruct Hp as [-> ->]. now rewrite !String.eqb_refl.
Qed.

(** X2. The cascades leave no dangling reference behind: in a state where
    every project's client and every entry's client and project are stored,
    they still are after deleting a client, and after deleting a project. *)
Theorem delete_keeps_references :
  forall env state C P,
    no_dangling state = true ->
    no_dangling (reducer env state (DELETE_CLIENT C)) = true
    /\ no_dangling (reducer env state (DELETE_PROJECT P)) = true.
Proof.
  intros env state C P Hwf. unfold no_dangling in Hwf.
  apply andb_true_iff in Hwf as [Hp He].
  rewrite forallb_forall in Hp, He.
  split; unfold no_dangling; apply andb_true_iff; split;
    apply forallb_forall.
  - intros p Hin. cbn [projects reducer] in Hin.
    apply In_filter_id_neqb in Hin as [Hin Hne].
    apply has_client_iff. apply Hp, has_client_iff in Hin as [c [Hc Hid]].
    exists c. split; [| assumption]. cbn [clients reducer].
    apply In_filter_id_neqb. split; [assumption | congruence].
  - intros e Hin. cbn [entries reducer] in Hin.
    apply In_filter_id_neqb in Hin as [Hin Hne].
    apply He, andb_true_iff in Hin as [H1 H2].
    apply has_client_iff in H1 as [c [Hc Hid]].
    apply has_project_of_iff in H2 as [p [Hpin [Hpid Hpc]]].
    apply andb_true_iff. split.
    + apply has_client_iff. exists c. split; [| assumption].
      cbn [clients reducer]. apply In_filter_id_neqb. split; [assumption | congruence].
    + apply has_project_of_iff. exists p. split; [| now split].
      cbn [projects reducer]. apply In_filter_id_neqb. split; [assumption | congruence].
  - intros p Hin. cbn [projects reducer] in Hin.
    apply In_filter_id_neqb in Hin as [Hin Hne].
    apply has_client_iff. apply Hp, has_client_iff in Hin as [c [Hc Hid]].
    exists c. now split.
  - intros e Hin. cbn [entries reducer] in Hin.
    apply In_filter_id_neqb in Hin as [Hin Hne].
    apply He, andb_true_iff in Hin as [H1 H2].
    apply has_project_of_iff in H2 as [p [Hpin [Hpid Hpc]]].
    apply andb_true_iff. split; [exact H1 |].
    apply has_project_of_iff. exists p. split; [| now split].
    cbn [projects reducer]. apply In_filter_id_neqb. split; [assumption | congruence].
Qed.

Lemma delete_keeps_references_witness :
  no_dangling state_one_hour = true
  /\ no_dangling (reducer env0 state_one_hour (DELETE_CLIENT "client_acme")) = true
  /\ no_dangling (reducer env0 state_one_hour (DELETE_PROJECT "project_site")) = true.
Proof.
  split; [reflexivity |].
  apply (delete_keeps_references env0 state_one_hour "client_acme" "project_site").
  reflexivity.
Defined.

(** ** Updating and adding *)

Lemma replace_by_id_absent {A} (key : A -> ID) (p : A) (l : list A) :
  ~ In (key p) (List.map key l) -> replace_by_id key p l = l.
Proof.
  unfold replace_by_id. induction l as [| x l IH]; [reflexivity |].
  cbn [List.map]. intros Hno.
  destruct (String.eqb_spec (key x) (key p)) as [Heq | Hne].
  - exfalso. apply Hno. left. assumption.
  - f_equal. apply IH. intros Hin. apply Hno. now right.
Qed.

Lemma replace_by_id_keys {A} (key : A -> ID) (p : A) (l : list A) :
  List.map key (replace_by_id key p l) = List.map key l.
Proof.
  unfold replace_by_id. rewrite List.map_map. apply List.map_ext.
  intros x. now destruct (String.eqb_spec (key x) (key p)).
Qed.

Lemma replace_by_id_lookup {A} (key : A -> ID) (p : A) (l : list A) (i : nat) :
  replace_by_id key p l !! i
  = (fun x => if String.eqb (key x) (key p) then p else x) <$> (l !! i).
Proof. unfold replace_by_id. apply list_lookup_fmap. Qed.

Lemma filter_id_neqb_absent {A} (key : A -> ID) (k : ID) (l : list A) :
  ~ In k (List.map key l) -> List.filter (fun y => id_neqb (key y) k) l = l.
Proof.
  induction l as [| x l IH]; [reflexivity |].
  cbn [List.map List.filter]. intros Hno.
  destruct (id_neqb (key x) k) eqn:Hk.
  - f_equal. apply IH. intros Hin. apply Hno. now right.
  - exfalso. apply Hno. left.
    unfold id_neqb in Hk. apply negb_false_iff in Hk. now apply String.eqb_eq.
Qed.

(** X3. An update whose identifier is not stored changes nothing, in each of
    the four collections. *)
Theorem update_unknown_id_is_noop :
  forall env state,
    (forall c, ~ In (Client.id c) (List.map Client.id (clients state)) ->
               reducer env state (UPDATE_CLIENT c) = state)
    /\ (forall p, ~ In (Project.id p) (List.map Project.id (projects state)) ->
                  reducer env state (UPDATE_PROJECT p) = state)
    /\ (forall e, ~ In (TimeEntry.id e) (List.map TimeEntry.id (entries state)) ->
                  reducer env state (UPDATE_ENTRY e) = state)
    /\ (forall i, ~ In (Invoice.id i) (List.map Invoice.id (invoices state)) ->
                  reducer env state (UPDATE_INVOICE i) = state).
Proof.
  intros env [cs ps es ivs t].
  repeat split; intros x Hno;
    cbn [reducer with_clients with_projects with_entries with_invoices
         clients projects entries invoices runningTimer] in *;
    now rewrite replace_by_id_absent.
Qed.

(** X4. An update replaces in place: position by position the stored entry is
    the payload where the identifier matches and the old entry elsewhere, so
    the identifiers, their order and the number of entries are unchanged;
    nothing but the entries changes. *)
Theorem updateEntry_in_place :
  forall env state e,
    let s := reducer env state (UPDATE_ENTRY e) in
    (forall i, entries s !! i
               = (fun x => if decide (TimeEntry.id x = TimeEntry.id e) then e else x)
                   <$> (entries state !! i))
    /\ List.map TimeEntry.id (entries s) = List.map TimeEntry.id (entries state)
    /\ List.length (entries s) = List.length (entries state)
    /\ (forall x, In x (entries s) -> TimeEntry.id x = TimeEntry.id e -> x = e)
    /\ clients s = clients state /\ projects s = projects state
    /\ invoices s = invoices state /\ runningTimer s = runningTimer state.
Proof.
  intros env state e. cbn.
  split.
  { intros i. rewrite replace_by_id_lookup.
    destruct (entries state !! i) as [x |]; [| reflexivity]. cbn.
    destruct (String.eqb_spec (TimeEntry.id x) (TimeEntry.id e));
      destruct (decide (TimeEntry.id x = TimeEntry.id e)); congruence. }
  split; [apply replace_by_id_keys |].
  split; [unfold replace_by_id; apply List.length_map |].
  split; [| repeat split].
  intros x Hin Hid. unfold replace_by_id in Hin.
  apply in_map_iff in Hin as [y [Hy _]].
  destruct (String.eqb_spec (TimeEntry.id y) (TimeEntry.id e)); congruence.
Qed.

(** X5. Adding a value under an identifier that is used nowhere and deleting
    that identifier again gives back the state: for an entry, an invoice, a
    project no entry refers to, and a client no project or entry refers
    to. *)
Theorem add_then_delete_restores :
  forall env state,
    (forall e, ~ In (TimeEntry.id e) (List.map TimeEntry.id (entries state)) ->
       reducer env (reducer env state (ADD_ENTRY e)) (DELETE_ENTRY (TimeEntry.id e))
       = state)
    /\ (forall i, ~ In (Invoice.id i) (List.map Invoice.id (invoices state)) ->
       reducer env (reducer env state (ADD_INVOICE i)) (DELETE_INVOICE (Invoice.id i))
       = state)
    /\ (forall p, ~ In (Project.id p) (List.map Project.id (projects state)) ->
                  ~ In (Project.id p) (List.map TimeEntry.projectId (entries state)) ->
       reducer env (reducer env state (ADD_PROJECT p)) (DELETE_PROJECT (Project.id p))
       = state)
    /\ (forall c, ~ In (Client.id c) (List.map Client.id (clients state)) ->
                  ~ In (Client.id c) (List.map Project.clientId (projects state)) ->
                  ~ In (Client.id c) (List.map TimeEntry.clientId (entries state)) ->
       reducer env (reducer env state (ADD_CLIENT c)) (DELETE_CLIENT (Client.id c))
       = state).
Proof.
  intros env [cs ps es ivs t].
  assert (Hself : forall k, id_neqb k k = false).
  { intros k. unfold id_neqb. now rewrite String.eqb_refl. }
  repeat split; intros x; cbn; intros; rewrite ?Hself;
    now rewrite ?filter_id_neqb_absent by assumption.
Qed.

(** X6. Deleting an entry removes the entries with that identifier and leaves
    the others, as often and in the same order, and everything else; an
    identifier that is not stored deletes nothing, and deleting twice is
    deleting once. *)
Theorem deleteEntry_exact :
  forall env state id,
    let s := reducer env state (DELETE_ENTRY id) in
    entries s = filter (fun e => TimeEntry.id e <> id) (entries state)
    /\ (forall e, In e (entries s) <-> In e (entries state) /\ TimeEntry.id e <> id)
    /\ clients s = clients state /\ projects s = projects state
    /\ invoices s = invoices state /\ runningTimer s = runningTimer state
    /\ (~ In id (List.map TimeEntry.id (entries state)) -> s = state)
    /\ reducer env s (DELETE_ENTRY id) = s.
Proof.
  intros env [cs ps es ivs t] id. cbn.
  split; [apply filter_id_neqb_filter |].
  split; [intros e; apply In_filter_id_neqb |].
  repeat split.
  - intros Hno. unfold with_entries. cbn. now rewrite filter_id_neqb_absent.
  - unfold with_entries. cbn. f_equal.
    apply filter_id_neqb_absent. intros Hin.
    apply in_map_iff in Hin as [x [Hx Hin]].
    apply In_filter_id_neqb in Hin as [_ Hne]. congruence.
Qed.

(** ** The timer, start to stop *)

(** X7. From a state without timer, starting at [t1] and stopping at [t2] adds
    exactly one entry in front: it runs from [t1] to [t2], lasts
    [max 0 (t2 - t1)], carries the form's notes and billable flag and its
    client and project, or the sentinels where none was selected; the timer
    is cleared again and nothing else has changed.  Starting and resetting
    gives back the state. *)
Theorem start_then_stop :
  forall env1 env2 state form t1 t2,
    runningTimer state = None ->
    (exists e,
       stopTimer env2 (startTimer env1 state form t1) t2
       = mkState (clients state) (projects state) (e :: entries state)
                 (invoices state) None
       /\ TimeEntry.id e = uid env2 "entry"
       /\ TimeEntry.start e = t1
       /\ TimeEntry.end_ e = Some t2
       /\ TimeEntry.durationMs e = Z.max 0 (t2 - t1)
       /\ TimeEntry.clientId e = or_string (selClient form) "unassigned_client"
       /\ TimeEntry.projectId e = or_string (selProject form) "unassigned_project"
       /\ TimeEntry.notes e = Some (form_notes form)
       /\ TimeEntry.billable e = form_billable form)
    /\ resetTimer env2 (startTimer env1 state form t1) = state.
Proof.
  intros env1 env2 [cs ps es ivs t] form t1 t2 Hidle. cbn in Hidle. subst t.
  split; [| reflexivity].
  eexists. split; [reflexivity |]. repeat split.
Qed.

Lemma start_then_stop_witness :
  runningTimer state_clients_only = None
  /\ (exists e,
        entries (stopTimer env0
                   (startTimer env0 state_clients_only form_other 1705309200000)
                   1705312800000) = [e]
        /\ TimeEntry.durationMs e = 3600000
        /\ TimeEntry.clientId e = "unassigned_client")
  /\ resetTimer env0 (startTimer env0 state_clients_only form_other 1705309200000)
     = state_clients_only.
Proof.
  split; [reflexivity |].
  destruct (start_then_stop env0 env0 state_clients_only form_other
              1705309200000 1705312800000 eq_refl)
    as [[e [Hs [_ [_ [_ [Hd [Hc _]]]]]]] Hr].
  split; [| exact Hr].
  exists e. rewrite Hs. repeat split; assumption.
Defined.

(** ** Sessions: what every sequence of events preserves *)

Section Sessions.

Variable trim : string -> string.

Lemma run_invariant (P : AppState -> Prop) :
  (forall env s ev, P s -> P (handle trim env s ev)) ->
  forall evs s, P s -> P (run trim s evs).
Proof.
  intros Hstep evs. induction evs as [| [env ev] evs IH]; intros s Hs.
  - exact Hs.
  - apply IH. now apply Hstep.
Qed.

Lemma forallb_filter_keep {A} (p q : A -> bool) (l : list A) :
  forallb p l = true -> forallb p (List.filter q l) = true.
Proof.
  rewrite !List.forallb_forall. intros H x Hx.
  apply List.filter_In in Hx. now apply H.
Qed.

Lemma forallb_replace_by_id {A} (key : A -> ID) (p : A -> bool) (x : A) (l : list A) :
  p x = true -> forallb p l = true -> forallb p (replace_by_id key x l) = true.
Proof.
  intros Hx. rewrite !List.forallb_forall. intros H y Hy.
  unfold replace_by_id in Hy. apply List.in_map_iff in Hy.
  destruct Hy as [z [Hz Hin]]. subst y.
  destruct (String.eqb (key z) (key x)); [exact Hx | now apply H].
Qed.

Lemma EntryDialog_save_ok env entry form e :
  EntryDialog_save env entry form = Some e -> entry_ok e = true.
Proof.
  unfold EntryDialog_save, entry_ok.
  destruct entry as [old |].
  - intros [= <-]. cbn.
    apply andb_true_iff. split; [apply Z.leb_le; lia |].
    unfold or_zero.
    destruct (match dlg_end form with
              | Some e => e
              | None => or_int (TimeEntry.end_ old) (TimeEntry.start old)
              end =? 0) eqn:Hz; [reflexivity |].
    cbn. apply Z.eqb_eq. reflexivity.
  - destruct (dlg_clientId form) as [[| a c] |]; try discriminate.
    destruct (dlg_projectId form) as [[| b p] |]; try discriminate.
    destruct (dlg_start form) as [startMs |]; try discriminate.
    intros [= <-]. cbn.
    apply andb_true_iff. split; [apply Z.leb_le; lia |].
    apply orb_true_iff. right. apply Z.eqb_eq. reflexivity.
Qed.

Lemma handle_entries_ok env s ev :
  forallb entry_ok (entries s) = true ->
  forallb entry_ok (entries (handle trim env s ev)) = true.
Proof.
  intros H. destruct ev; cbn [handle].
  - unfold startTimer. destruct (runningTimer s); [exact H | exact H].
  - unfold stopTimer. destruct (runningTimer s) as [t |] eqn:Ht; [| exact H].
    cbn [reducer]. rewrite Ht. cbn [entries forallb].
    rewrite H, andb_true_r. unfold entry_ok. cbn.
    apply andb_true_iff. split; [apply Z.leb_le; lia |].
    apply orb_true_iff. right. apply Z.eqb_eq. reflexivity.
  - exact H.
  - destruct (ClientDialog_save trim env client form); [| exact H].
    unfold onSaveClient. destruct client; exact H.
  - destruct (ProjectDialog_save trim env project form); [| exact H].
    unfold onSaveProject. destruct project; exact H.
  - unfold saveEntryDialog.
    destruct (EntryDialog_save env entry form) as [e |] eqn:He; [| exact H].
    apply EntryDialog_save_ok in He. unfold onSaveEntry.
    destruct (existsb _ _); cbn [reducer with_entries entries].
    + now apply forallb_replace_by_id.
    + cbn [forallb]. now rewrite He, H.
  - cbn. now apply forallb_filter_keep.
  - cbn. now apply forallb_filter_keep.
  - cbn. now apply forallb_filter_keep.
  - exact H.
  - unfold createInvoice_state.
    destruct (createInvoice env s form); exact H.
Qed.

(** X8. Over every session, from a state whose entries are well formed: every
    entry has an end and a duration that is not negative, and, unless its
    end is the instant 0, the duration is the difference of end and start,
    clamped at 0.  Timer, dialog and deletions all keep it. *)
Theorem session_entries_well_formed :
  forall evs state,
    forallb entry_ok (entries state) = true ->
    forall e, In e (entries (run trim state evs)) ->
      0 <= TimeEntry.durationMs e
      /\ exists x, TimeEntry.end_ e = Some x
           /\ (x <> 0 -> TimeEntry.durationMs e = Z.max 0 (x - TimeEntry.start e)).
Proof.
  intros evs state H e He.
  assert (Hall : forallb entry_ok (entries (run trim state evs)) = true).
  { apply (run_invariant (fun s => forallb entry_ok (entries s) = true));
      [intros; now apply handle_entries_ok | exact H]. }
  rewrite List.forallb_forall in Hall. specialize (Hall e He).
  unfold entry_ok in Hall. apply andb_true_iff in Hall. destruct Hall as [Hd Hx].
  apply Z.leb_le in Hd. split; [exact Hd |].
  destruct (TimeEntry.end_ e) as [x |]; [| discriminate].
  exists x. split; [reflexivity |]. intros Hnz.
  apply orb_true_iff in Hx. destruct Hx as [Hx | Hx].
  - apply Z.eqb_eq in Hx. contradiction.
  - now apply Z.eqb_eq in Hx.
Qed.

Lemma handle_invoices env s ev :
  invoices (handle trim env s ev)
  = match ev with
    | ClickDeleteInvoice id =>
        List.filter (fun i => id_neqb (Invoice.id i) id) (invoices s)
    | ClickCreateInvoice form =>
        match createInvoice env s form with
        | Some inv => inv :: invoices s
        | None => invoices s
        end
    | _ => invoices s
    end.
Proof.
  destruct ev; cbn [handle]; try reflexivity.
  - unfold startTimer. now destruct (runningTimer s).
  - unfold stopTimer. destruct (runningTimer s) eqn:Ht; [| reflexivity].
    cbn [reducer]. now rewrite Ht.
  - destruct (ClientDialog_save trim env client form); [| reflexivity].
    unfold onSaveClient. now destruct client.
  - destruct (ProjectDialog_save trim env project form); [| reflexivity].
    unfold onSaveProject. now destruct project.
  - unfold saveEntryDialog.
    destruct (EntryDialog_save env entry form); [| reflexivity].
    unfold onSaveEntry. now destruct (existsb _ _).
  - unfold createInvoice_state. now destruct (createInvoice env s form).
Qed.

Lemma createInvoice_is_draft env s form inv :
  createInvoice env s form = Some inv -> is_draft inv = true.
Proof.
  unfold createInvoice.
  destruct (invoiceClient form) as [[| a r] |]; try discriminate.
  now intros [= <-].
Qed.

(** X9. No event changes a stored invoice: after any event an invoice of the
    state is still there, field for field, unless the event is the
    deletion of an invoice with its identifier; and every invoice that is
    there afterwards was there before or is the one just created. *)
Theorem stored_invoice_is_immutable :
  forall env state ev,
    (forall inv, In inv (invoices state) ->
       In inv (invoices (handle trim env state ev))
       \/ ev = ClickDeleteInvoice (Invoice.id inv))
    /\ (forall inv, In inv (invoices (handle trim env state ev)) ->
          In inv (invoices state)
          \/ exists form, ev = ClickCreateInvoice form
               /\ createInvoice env state form = Some inv).
Proof.
  intros env state ev. rewrite handle_invoices. split; intros inv Hin.
  - destruct ev; try (left; exact Hin).
    + destruct (String.eqb (Invoice.id inv) id) eqn:E.
      * right. apply String.eqb_eq in E. now subst.
      * left. apply List.filter_In. split; [exact Hin |].
        unfold id_neqb. now rewrite E.
    + left. destruct (createInvoice env state form); [now right | exact Hin].
  - destruct ev; try (left; exact Hin).
    + left. now apply List.filter_In in Hin.
    + destruct (createInvoice env state form) as [i |] eqn:Hc; [| now left].
      destruct Hin as [-> | Hin]; [| now left].
      right. now exists form.
Qed.

(** X10. Over every session, from a state whose invoices are all drafts, all
    invoices are drafts: invoices are created as drafts and no event
    changes a status. *)
Theorem session_invoices_stay_draft :
  forall evs state,
    forallb is_draft (invoices state) = true ->
    forall inv, In inv (invoices (run trim state evs)) ->
      Invoice.status inv = draft.
Proof.
  intros evs state H inv Hin.
  assert (Hall : forallb is_draft (invoices (run trim state evs)) = true).
  { apply (run_invariant (fun s => forallb is_draft (invoices s) = true));
      [| exact H].
    intros env s ev Hs. rewrite handle_invoices.
    destruct ev; try exact Hs.
    - now apply forallb_filter_keep.
    - destruct (createInvoice env s form) as [i |] eqn:Hc; [| exact Hs].
      cbn [forallb]. now rewrite (createInvoice_is_draft _ _ _ _ Hc), Hs. }
  rewrite List.forallb_forall in Hall. specialize (Hall inv Hin).
  unfold is_draft in Hall. now destruct (Invoice.status inv).
Qed.

End Sessions.

(** ** Reports: [byClient], [byProject] *)

Lemma or_int_Some_0 z : or_int (Some z) 0 = z.
Proof. unfold or_int. destruct (Z.eqb_spec z 0); congruence. Qed.

Lemma omap_get_set {V} k (v : V) m k' :
  omap_get k' (omap_set k v m)
  = if String.eqb k k' then Some v else omap_get k' m.
Proof.
  induction m as [| [k0 v0] m IH]; simpl.
  - reflexivity.
  - destruct (String.eqb_spec k0 k) as [-> | Hne]; simpl.
    + destruct (String.eqb k k'); reflexivity.
    + destruct (String.eqb_spec k0 k') as [-> | Hne'].
      * destruct (String.eqb_spec k k'); [congruence | reflexivity].
      * exact IH.
Qed.

Lemma time_of_cons key k e es :
  time_of key k (e :: es)
  = (if String.eqb (key e) k then TimeEntry.durationMs e else 0) + time_of key k es.
Proof.
  unfold time_of. simpl. destruct (String.eqb (key e) k); reflexivity.
Qed.

Lemma filter_none {A} (p : A -> bool) (l : list A) :
  existsb p l = false -> List.filter p l = [].
Proof.
  induction l as [| x l IH]; [reflexivity |].
  simpl. intros H. apply orb_false_iff in H as [Hx Hl].
  rewrite Hx. now apply IH.
Qed.

Lemma aggregate_get key es : forall m k,
  omap_get k (List.fold_left (aggregate_step key) es m)
  = if existsb (fun e => String.eqb (key e) k) es
    then Some (or_int (omap_get k m) 0 + time_of key k es)
    else omap_get k m.
Proof.
  induction es as [| e es IH]; intros m k; [reflexivity |].
  simpl. rewrite IH. unfold aggregate_step. rewrite omap_get_set.
  rewrite time_of_cons.
  destruct (String.eqb_spec (key e) k) as [-> | Hne]; cbn [orb].
  - rewrite or_int_Some_0.
    destruct (existsb _ es) eqn:Hex; [f_equal; lia |].
    f_equal. unfold time_of. rewrite (filter_none _ _ Hex). simpl. lia.
  - reflexivity.
Qed.

Lemma first_seen_In l k : In k (first_seen l) <-> In k l.
Proof.
  induction l as [| x l IH]; [reflexivity |].
  simpl. rewrite List.filter_In, IH. unfold id_neqb.
  destruct (String.eqb_spec k x) as [-> | Hne]; simpl.
  - split; [intros _; now left | intros _; now left].
  - split.
    + intros [H | [H _]]; [now left | now right].
    + intros [H | H]; [now left | right; now split].
Qed.

Lemma first_seen_NoDup l : List.NoDup (first_seen l).
Proof.
  induction l as [| x l IH]; simpl; constructor.
  - rewrite List.filter_In. unfold id_neqb. rewrite String.eqb_refl.
    intros [_ H]. discriminate.
  - now apply List.NoDup_filter.
Qed.

Lemma filter_filter {A} (p q : A -> bool) (l : list A) :
  List.filter p (List.filter q l) = List.filter (fun x => q x && p x) l.
Proof.
  induction l as [| x l IH]; [reflexivity |].
  simpl. destruct (q x); simpl; [destruct (p x) |]; now rewrite IH.
Qed.

Lemma aggregate_keys key es : forall m,
  List.map fst (List.fold_left (aggregate_step key) es m)
  = (List.map fst m
     ++ List.filter (fun k => negb (existsb (String.eqb k) (List.map fst m)))
          (first_seen (List.map key es)))%list.
Proof.
  induction es as [| e es IH]; intros m.
  - simpl. now rewrite List.app_nil_r.
  - simpl. rewrite IH. unfold aggregate_step. rewrite omap_set_keys.
    rewrite filter_filter.
    destruct (existsb (String.eqb (key e)) (List.map fst m)) eqn:Hex; simpl.
    + f_equal. apply List.filter_ext_in.
      intros k _. unfold id_neqb.
      destruct (String.eqb_spec k (key e)) as [-> | Hne]; simpl.
      * now rewrite Hex.
      * reflexivity.
    + rewrite <- List.app_assoc. simpl. do 2 f_equal.
      apply List.filter_ext. intros k.
      rewrite List.existsb_app. simpl. rewrite orb_false_r.
      unfold id_neqb. rewrite negb_orb. apply andb_comm.
Qed.

Lemma filter_all {A} (l : list A) : List.filter (fun _ => true) l = l.
Proof. induction l as [| x l IH]; simpl; congruence. Qed.

Lemma rows_of_get (f : ID -> Z) (m : list (ID * Z)) :
  List.NoDup (List.map fst m) ->
  (forall k, In k (List.map fst m) -> omap_get k m = Some (f k)) ->
  m = List.map (fun k => (k, f k)) (List.map fst m).
Proof.
  induction m as [| [k0 v0] m IH]; [reflexivity |].
  simpl. intros Hnd Hget. apply List.NoDup_cons_iff in Hnd as [Hk0 Hnd].
  f_equal.
  - specialize (Hget k0 (or_introl eq_refl)). rewrite String.eqb_refl in Hget.
    congruence.
  - apply IH; [exact Hnd |]. intros k Hk.
    specialize (Hget k (or_intror Hk)).
    destruct (String.eqb_spec k0 k) as [-> | Hne]; [contradiction | exact Hget].
Qed.

Lemma aggregate_rows key es :
  aggregate key es
  = List.map (fun k => (k, time_of key k es)) (first_seen (List.map key es)).
Proof.
  assert (Hkeys : List.map fst (aggregate key es) = first_seen (List.map key es)).
  { unfold aggregate. rewrite aggregate_keys. simpl. apply filter_all. }
  rewrite <- Hkeys. apply rows_of_get.
  - rewrite Hkeys. apply first_seen_NoDup.
  - intros k Hk. rewrite Hkeys in Hk. apply -> first_seen_In in Hk.
    unfold aggregate. rewrite aggregate_get.
    replace (existsb (fun e => String.eqb (key e) k) es) with true; [reflexivity |].
    symmetry. apply List.existsb_exists.
    apply List.in_map_iff in Hk as [e [He Hin]].
    exists e. split; [exact Hin |]. now apply String.eqb_eq.
Qed.

(** X11. The reports list each client (each project) that has an entry in the
    range exactly once, in the order of first appearance among the entries
    in range, with the sum of the durations of that client's (project's)
    entries in range. *)
Theorem reports_group_by_first_appearance :
  forall state fromDate toDate,
    byClient state fromDate toDate
    = List.map
        (fun k => (k, time_of TimeEntry.clientId k (filteredEntries state fromDate toDate)))
        (first_seen (List.map TimeEntry.clientId (filteredEntries state fromDate toDate)))
    /\ byProject state fromDate toDate
       = List.map
           (fun k => (k, time_of TimeEntry.projectId k (filteredEntries state fromDate toDate)))
           (first_seen (List.map TimeEntry.projectId (filteredEntries state fromDate toDate))).
Proof.
  intros state fromDate toDate. unfold byClient, byProject.
  split; apply aggregate_rows.
Qed.

Lemma sum_rows_set k v m :
  sum_rows (omap_set k v m) = sum_rows m - or_int (omap_get k m) 0 + v.
Proof.
  assert (Hcons : forall r l, sum_rows (r :: l) = snd r + sum_rows l)
    by reflexivity.
  induction m as [| [k0 v0] m IH]; cbn [omap_set omap_get].
  - simpl. lia.
  - destruct (String.eqb_spec k0 k) as [-> | Hne].
    + rewrite or_int_Some_0, !Hcons. simpl. lia.
    + rewrite !Hcons, IH. simpl. lia.
Qed.

Lemma sum_rows_fold key es : forall m,
  sum_rows (List.fold_left (aggregate_step key) es m) = sum_rows m + total_ms es.
Proof.
  induction es as [| e es IH]; intros m; simpl; [lia |].
  rewrite IH. unfold aggregate_step. rewrite sum_rows_set. lia.
Qed.

(** X12. Both reports account for all the time in range: the durations of the
    rows by client and of the rows by project each add up to the total
    duration of the entries in range. *)
Theorem reports_conserve_time :
  forall state fromDate toDate,
    sum_rows (byClient state fromDate toDate)
    = total_ms (filteredEntries state fromDate toDate)
    /\ sum_rows (byProject state fromDate toDate)
       = total_ms (filteredEntries state fromDate toDate).
Proof.
  intros state fromDate toDate. unfold byClient, byProject, aggregate.
  rewrite !sum_rows_fold. simpl. split; reflexivity.
Qed.

(** ** [wrap] and the standard reader *)



(** ** Decimal texts *)

Lemma pretty_N_go_length x : forall s,
  (String.length s <= String.length (pretty_N_go x s))%nat.
Proof.
  induction (N.lt_wf_0 x) as [x _ IH]; intros s.
  destruct (N.eq_dec x 0%N) as [-> | Hx]; [now rewrite pretty_N_go_0 |].
  rewrite pretty_N_go_step by lia.
  etransitivity; [| apply IH; apply N.div_lt; lia]. simpl. lia.
Qed.

Lemma pretty_Z_length_ge_10 n :
  10 <= n -> (2 <= String.length (pretty n))%nat.
Proof.
  intros Hn. destruct n as [| p | p]; try lia.
  unfold pretty, pretty_Z, pretty, pretty_positive, pretty, pretty_N.
  destruct (decide (N.pos p = 0%N)) as [H0 | _]; [discriminate |].
  rewrite pretty_N_go_step by lia.
  rewrite pretty_N_go_step
    by (apply N.div_str_pos; lia).
  etransitivity; [| apply pretty_N_go_length]. simpl. lia.
Qed.

(** ** [msToHMS] *)

Lemma padStart2_two_digits n :
  0 <= n < 100 -> padStart2 (pretty n) = digits2 n.
Proof.
  intros Hn.
  assert (Hall : forallb (fun k => String.eqb (padStart2 (pretty (Z.of_nat k)))
                                              (digits2 (Z.of_nat k)))
                         (List.seq 0 100) = true) by (vm_compute; reflexivity).
  rewrite List.forallb_forall in Hall.
  specialize (Hall (Z.to_nat n)).
  rewrite Z2Nat.id in Hall by lia.
  apply String.eqb_eq, Hall, List.in_seq. lia.
Qed.

(** X14. For a duration that is not negative the text is [H:MM:SS] of the whole
    seconds: minutes and seconds are below 60 and written with two digits,
    the hours are not bounded and written in full (with a leading zero
    below ten), and hours, minutes and seconds add up to the duration
    without its milliseconds. *)
Theorem msToHMS_fields :
  forall ms, 0 <= ms ->
    exists h m s,
      0 <= h /\ 0 <= m < 60 /\ 0 <= s < 60
      /\ 3600 * h + 60 * m + s = ms / 1000
      /\ msToHMS ms
         = (if h <? 10 then digits2 h else pretty h)
             ++ ":" ++ digits2 m ++ ":" ++ digits2 s.
Proof.
  intros ms Hms.
  set (t := ms / 1000).
  assert (Ht : 0 <= t) by (apply Z.div_pos; lia).
  exists (t / 3600), (Z.rem t 3600 / 60), (Z.rem t 60).
  rewrite !Z.rem_mod_nonneg by lia.
  assert (H1 : 0 <= t / 3600) by (apply Z.div_pos; lia).
  assert (H2 : 0 <= t mod 3600 < 3600) by (apply Z.mod_pos_bound; lia).
  assert (H3 : 0 <= t mod 3600 / 60 < 60).
  { split; [apply Z.div_pos; lia | apply Z.div_lt_upper_bound; lia]. }
  assert (H4 : 0 <= t mod 60 < 60) by (apply Z.mod_pos_bound; lia).
  repeat split; try lia.
  - assert (E : t mod 60 = (t mod 3600) mod 60).
    { rewrite (Z.div_mod t 3600) at 1 by lia.
      replace (3600 * (t / 3600) + t mod 3600)
        with (t mod 3600 + (60 * (t / 3600)) * 60) by lia.
      apply Z.mod_add. lia. }
    pose proof (Z.div_mod t 3600 ltac:(lia)).
    pose proof (Z.div_mod (t mod 3600) 60 ltac:(lia)). lia.
  - unfold msToHMS. fold t. rewrite !Z.rem_mod_nonneg by lia.
    cbn [List.map join].
    rewrite (padStart2_two_digits (t mod 3600 / 60)) by lia.
    rewrite (padStart2_two_digits (t mod 60)) by lia.
    f_equal.
    destruct (Z.ltb_spec (t / 3600) 10) as [Hlt | Hge].
    + apply padStart2_two_digits. lia.
    + unfold padStart2.
      pose proof (pretty_Z_length_ge_10 _ Hge) as Hlen.
      replace (2 - String.length (pretty (t / 3600)%Z))%nat with 0%nat by lia.
      reflexivity.
Qed.

Lemma msToHMS_fields_witness :
  exists h m s,
    0 <= h /\ 0 <= m < 60 /\ 0 <= s < 60
    /\ 3600 * h + 60 * m + s = 45296789 / 1000
    /\ msToHMS 45296789
       = (if h <? 10 then digits2 h else pretty h)
           ++ ":" ++ digits2 m ++ ":" ++ digits2 s.
Proof. apply msToHMS_fields. lia. Defined.

(** ** Invoice numbers *)

Lemma digit_value_char x :
  (x < 10)%N -> digit_value (pretty_N_char x) = Z.of_N x.
Proof.
  intros Hx.
  assert (Hall : forallb (fun k => digit_value (pretty_N_char (N.of_nat k))
                                   =? Z.of_N (N.of_nat k))
                         (List.seq 0 10) = true) by reflexivity.
  rewrite List.forallb_forall in Hall.
  specialize (Hall (N.to_nat x)). rewrite N2Nat.id in Hall.
  apply Z.eqb_eq, Hall, List.in_seq. lia.
Qed.

Lemma decimal_value_go x : forall s,
  decimal_value (pretty_N_go x s)
  = Z.of_N x * 10 ^ Z.of_nat (String.length s) + decimal_value s.
Proof.
  induction (N.lt_wf_0 x) as [x _ IH]; intros s.
  destruct (N.eq_dec x 0%N) as [-> | Hx]; [rewrite pretty_N_go_0; lia |].
  rewrite pretty_N_go_step by lia.
  rewrite IH by (apply N.div_lt; lia).
  cbn [decimal_value String.length].
  rewrite digit_value_char by (apply N.mod_lt; lia).
  rewrite Nat2Z.inj_succ, Z.pow_succ_r by lia.
  assert (E : Z.of_N x = 10 * Z.of_N (x / 10) + Z.of_N (x mod 10)).
  { rewrite N2Z.inj_div, N2Z.inj_mod. change (Z.of_N 10) with 10.
    apply Z.div_mod. lia. }
  rewrite E at 1. ring.
Qed.

Lemma decimal_value_pretty_nat (n : nat) :
  decimal_value (pretty n) = Z.of_nat n.
Proof.
  unfold pretty, pretty_nat, pretty, pretty_N.
  destruct (decide (N.of_nat n = 0%N)) as [H0 | _].
  - assert (n = 0%nat) as -> by lia. reflexivity.
  - rewrite decimal_value_go. cbn [String.length decimal_value].
    rewrite nat_N_Z. change (10 ^ Z.of_nat 0) with 1. lia.
Qed.

Lemma decimal_value_zeros k s :
  decimal_value (String.string_of_list_ascii (List.repeat "0"%char k) ++ s)
  = decimal_value s.
Proof.
  induction k as [| k IH]; [reflexivity |].
  cbn [List.repeat String.string_of_list_ascii String.append decimal_value].
  rewrite IH. reflexivity.
Qed.

Lemma string_app_inv_head (p a b : string) : p ++ a = p ++ b -> a = b.
Proof.
  induction p as [| c p IH]; simpl; [auto |]. intros [= H]. now apply IH.
Qed.

Lemma createInvoice_number env state form inv :
  createInvoice env state form = Some inv ->
  Invoice.number inv
  = "INV-" ++ pretty (fullYear env) ++ "-"
      ++ padStart4 (pretty (List.length (invoices state) + 1)%nat).
Proof.
  unfold createInvoice.
  destruct (invoiceClient form) as [[| a r] |]; try discriminate.
  now intros [= <-].
Qed.

(** X15. The running part of an invoice number is the count of stored invoices
    plus one, written with at least four digits.  So two invoices made in
    the same year carry the same number exactly when equally many invoices
    were stored when each was made: numbers do not repeat while invoices
    are only added, and a number comes back once an invoice has been
    deleted. *)
Theorem invoice_number_counts_stored :
  forall env1 env2 state1 state2 form1 form2 inv1 inv2,
    createInvoice env1 state1 form1 = Some inv1 ->
    createInvoice env2 state2 form2 = Some inv2 ->
    fullYear env1 = fullYear env2 ->
    (Invoice.number inv1 = Invoice.number inv2
     <-> List.length (invoices state1) = List.length (invoices state2)).
Proof.
  intros env1 env2 state1 state2 form1 form2 inv1 inv2 H1 H2 Hy.
  rewrite (createInvoice_number _ _ _ _ H1), (createInvoice_number _ _ _ _ H2), Hy.
  split.
  - intros H.
    apply string_app_inv_head, string_app_inv_head, string_app_inv_head in H.
    apply (f_equal decimal_value) in H. unfold padStart4 in H.
    rewrite !decimal_value_zeros, !decimal_value_pretty_nat in H. lia.
  - now intros ->.
Qed.

(** ** The rate and description of an invoice line *)








(** ** A project saved from the dialog, and the rate it bills at *)

Lemma find_last_absent {A} (key : A -> ID) (k : ID) (l : list A) :
  (forall x, In x l -> key x <> k) -> find_last key k l = None.
Proof.
  induction l as [| y l IH]; [reflexivity |].
  intros H. cbn [find_last]. rewrite IH by (intros x Hx; apply H; now right).
  destruct (String.eqb_spec (key y) k) as [Heq | _]; [| reflexivity].
  exfalso. apply (H y); [now left | exact Heq].
Qed.

(** X17. A new project saved from the dialog under an identifier no stored
    project has bills at the rate entered, if that is a number other than
    zero; with the rate left at zero it stores no rate of its own and bills
    at whatever its entries' client gives. *)
Theorem new_project_rate :
  forall trim env state form p clientId,
    ProjectDialog_save trim env None form = Some p ->
    (forall q, In q (projects state) -> Project.id q <> Project.id p) ->
    rateFor (handle trim env state (SaveProject None form))
            (Some (Project.id p)) clientId
    = if truthy_num (pf_rate form) then pf_rate form
      else rateFor state None clientId.
Proof.
  intros trim env state form p clientId Hsave Hfresh.
  cbn [handle]. rewrite Hsave. unfold onSaveProject.
  cbn [reducer with_projects].
  unfold ProjectDialog_save in Hsave.
  destruct (trim (pf_name form)) as [| a r]; [discriminate |].
  destruct (pf_clientId form) as [[| b c] |]; try discriminate.
  injection Hsave as <-. cbn [Project.id] in *.
  unfold rateFor. rewrite !get_truthy_projectMap, !get_truthy_clientMap.
  assert (Hid : exists x y, uid env "project" = String x y)
    by (unfold uid; simpl; eauto).
  destruct Hid as [x [y Hid]]. rewrite Hid in *.
  assert (Hc : the_client
                 (with_projects state
                    (Project.mk (String x y) (String b c) (String a r)
                       (rate_or_undefined (pf_rate form)) None (pf_archived form)
                     :: projects state)) clientId
               = the_client state clientId) by now destruct clientId as [[| ? ?] |].
  rewrite Hc. clear Hc.
  cbn [the_project with_projects projects find_last Project.id].
  rewrite (find_last_absent Project.id (String x y) (projects state) Hfresh).
  rewrite String.eqb_refl. cbn [mbind option_bind Project.rate].
  unfold rate_or_undefined, truthy_rate.
  destruct (truthy_num (pf_rate form)) eqn:Hr; [now rewrite Hr | reflexivity].
Qed.

(** ** Witnesses of the session properties *)

Lemma session_entries_well_formed_witness :
  forallb entry_ok (entries state_clients_only) = true
  /\ In (TimeEntry.mk "entry_q7w1e5rt_lrf2a0b1" "client_acme" "project_site"
                      1705395600000 (Some 1705392000000) 0
                      (Some "backdated") (Some []) true)
        (entries (run (fun s => s) state_clients_only session_work))
  /\ (0 <= 0
      /\ exists x, Some 1705392000000 = Some x
           /\ (x <> 0 -> 0 = Z.max 0 (x - 1705395600000))).
Proof.
  assert (Hin : In (TimeEntry.mk "entry_q7w1e5rt_lrf2a0b1" "client_acme" "project_site"
                      1705395600000 (Some 1705392000000) 0
                      (Some "backdated") (Some []) true)
                   (entries (run (fun s => s) state_clients_only session_work)))
    by (left; reflexivity).
  split; [reflexivity |]. split; [exact Hin |].
  exact (session_entries_well_formed (fun s => s) session_work state_clients_only
           eq_refl _ Hin).
Defined.

Lemma session_invoices_stay_draft_witness :
  forallb is_draft (invoices state_clients_only) = true
  /\ exists inv,
       In inv (invoices (run (fun s => s) state_clients_only session))
       /\ Invoice.number inv = "INV-2024-0001"
       /\ Invoice.status inv = draft.
Proof.
  split; [reflexivity |].
  eexists. split; [left; reflexivity |]. split; [reflexivity |].
  apply (session_invoices_stay_draft (fun s => s) session state_clients_only eq_refl).
  left. reflexivity.
Defined.

Lemma invoice_number_counts_stored_witness :
  exists inv1 inv2,
    createInvoice env0 state_clients_only form_acme_10 = Some inv1
    /\ createInvoice env0 (run (fun s => s) state_clients_only session) form_acme_10
       = Some inv2
    /\ fullYear env0 = fullYear env0
    /\ (Invoice.number inv1 = Invoice.number inv2
        <-> List.length (invoices state_clients_only)
            = List.length (invoices (run (fun s => s) state_clients_only session))).
Proof.
  eexists. eexists.
  split; [reflexivity |]. split; [reflexivity |]. split; [reflexivity |].
  apply (invoice_number_counts_stored env0 env0 state_clients_only
           (run (fun s => s) state_clients_only session) form_acme_10 form_acme_10);
    reflexivity.
Defined.


Lemma new_project_rate_witness :
  ProjectDialog_save (fun s => s) env0 None form_project_norate
  = Some (Project.mk "project_k3j9x2ab_lrf1o5c0" "client_fifty" "Website" None None false)
  /\ rateFor (handle (fun s => s) env0 state_rates (SaveProject None form_project_norate))
             (Some "project_k3j9x2ab_lrf1o5c0") (Some "client_fifty")
     = rateFor state_rates None (Some "client_fifty").
Proof.
  split; [reflexivity |].
  apply (new_project_rate (fun s => s) env0 state_rates form_project_norate
           (Project.mk "project_k3j9x2ab_lrf1o5c0" "client_fifty" "Website" None None false)
           (Some "client_fifty") eq_refl).
  intros q Hq. vm_compute in Hq.
  destruct Hq as [<- | [<- | []]]; discriminate.
Defined.

(** ** Stopping, the recent entries and the running clock *)

(** X18. Stopping a running timer puts an entry at the head of the recent
    entries, before the nine most recent ones of before; its duration is the
    running time the dashboard shows at that instant, or zero when that is
    negative; afterwards the running time shown is zero and a second stop
    changes nothing, so no second entry is recorded. *)
Theorem stopped_entry_heads_recent :
  forall env env' state t now now',
    runningTimer state = Some t ->
    (exists e,
       recent (stopTimer env state now) = e :: List.firstn 9 (entries state)
       /\ TimeEntry.start e = Timer.start t
       /\ TimeEntry.durationMs e = Z.max 0 (currentDuration state now))
    /\ currentDuration (stopTimer env state now) now' = 0
    /\ stopTimer env' (stopTimer env state now) now' = stopTimer env state now.
Proof.
  intros env env' state t now now' Ht.
  unfold stopTimer, recent, currentDuration. rewrite Ht.
  cbn [reducer]. rewrite Ht. cbn.
  split; [| split; reflexivity].
  eexists. split; [reflexivity |]. split; reflexivity.
Qed.

Lemma stopped_entry_heads_recent_witness :
  runningTimer state_running = Some timer_morning
  /\ (exists e,
        recent (stopTimer env0 state_running 1705312800000)
        = e :: List.firstn 9 (entries state_running)
        /\ TimeEntry.start e = Timer.start timer_morning
        /\ TimeEntry.durationMs e
           = Z.max 0 (currentDuration state_running 1705312800000))
  /\ currentDuration (stopTimer env0 state_running 1705312800000) 1705312800001 = 0
  /\ stopTimer env0 (stopTimer env0 state_running 1705312800000) 1705312800001
     = stopTimer env0 state_running 1705312800000.
Proof.
  split; [reflexivity |].
  apply (stopped_entry_heads_recent env0 env0 state_running timer_morning).
  reflexivity.
Defined.

(** ** Storage *)

(** X19. What a state hands to storage gives the state back, timer included:
    read by [loadState], and as the payload of [INIT] over any state. *)
Theorem persisted_state_comes_back :
  forall env state other raw,
    raw <> EmptyString ->
    loadState true (ItemText raw (Some (persistState state))) = state
    /\ reducer env other (INIT (persistState state)) = state.
Proof.
  intros env [cs ps es ivs t] other raw Hraw.
  destruct raw as [| a raw]; [congruence |]. split; reflexivity.
Qed.

Lemma persisted_state_comes_back_witness :
  "{...}" <> EmptyString
  /\ loadState true (ItemText "{...}" (Some (persistState state_running)))
     = state_running
  /\ reducer env0 state_one_hour (INIT (persistState state_running)) = state_running.
Proof.
  split; [discriminate |].
  apply (persisted_state_comes_back env0 state_running state_one_hour).
  discriminate.
Defined.

(** ** The entries of an invoice and of the report *)

(** X20. With the same dates, the entries of an invoice are those of the report
    that are billable and of the invoice's client, in the report's order;
    without dates the report shows every entry. *)
Theorem invoice_entries_within_report :
  forall state a r fromDate toDate,
    invoiceEntries state (Some (String a r)) fromDate toDate
    = List.filter
        (fun e => String.eqb (TimeEntry.clientId e) (String a r) && TimeEntry.billable e)
        (filteredEntries state fromDate toDate)
    /\ filteredEntries state None None = entries state.
Proof.
  intros state a r fromDate toDate.
  unfold invoiceEntries, filteredEntries. split.
  - rewrite filter_filter. apply List.filter_ext. intros e.
    destruct (in_range _ _ e); [now rewrite andb_true_r | now rewrite andb_false_r].
  - cbn [range_from range_to]. unfold in_range. cbn.
    induction (entries state) as [| e es IH]; [reflexivity |].
    cbn. now rewrite IH.
Qed.

(** ** Identifiers *)

(** X21. Identifiers of different kinds never coincide, whatever the random
    text and the clock text are, and none is the sentinel a stopped timer
    writes for a missing client or project; none is empty. *)
Theorem uid_kinds_are_disjoint :
  forall env1 env2,
    uid env1 "client" <> uid env2 "project"
    /\ uid env1 "client" <> uid env2 "entry"
    /\ uid env1 "client" <> uid env2 "inv"
    /\ uid env1 "project" <> uid env2 "entry"
    /\ uid env1 "project" <> uid env2 "inv"
    /\ uid env1 "entry" <> uid env2 "inv"
    /\ uid env1 "client" <> "unassigned_client"
    /\ uid env1 "project" <> "unassigned_project"
    /\ (forall prefix, uid env1 prefix <> EmptyString).
Proof.
  intros env1 env2. unfold uid.
  repeat split; try (simpl; discriminate).
  intros prefix. destruct prefix; simpl; discriminate.
Qed.

(** ** The dialogs *)

Section DialogProperties.

Variable trim : string -> string.

(** X22. A dialog that fails its validation changes nothing: a client or a
    project whose name is blank once trimmed, a project without client, a
    new entry without client, project or start. *)
Theorem invalid_dialog_changes_nothing :
  forall env state,
    (forall client form,
       trim (cf_name form) = EmptyString ->
       handle trim env state (SaveClient client form) = state)
    /\ (forall project form,
          trim (pf_name form) = EmptyString
          \/ truthy_string (pf_clientId form) = false ->
          handle trim env state (SaveProject project form) = state)
    /\ (forall form,
          truthy_string (dlg_clientId form) = false
          \/ truthy_string (dlg_projectId form) = false
          \/ dlg_start form = None ->
          handle trim env state (SaveEntry None form) = state).
Proof.
  intros env state. repeat split.
  - intros client form H. cbn [handle]. unfold ClientDialog_save. now rewrite H.
  - intros project form H. cbn [handle]. unfold ProjectDialog_save.
    destruct H as [-> | H]; [reflexivity |].
    destruct (trim (pf_name form)); [reflexivity |].
    now destruct (pf_clientId form) as [[| ? ?] |].
  - intros form H. cbn [handle]. unfold saveEntryDialog, EntryDialog_save.
    destruct (dlg_clientId form) as [[| ? ?] |]; try reflexivity.
    destruct (dlg_projectId form) as [[| ? ?] |]; try reflexivity.
    destruct (dlg_start form); [| reflexivity].
    destruct H as [H | [H | H]]; discriminate.
Qed.

(** X23. Saving a dialog opened on a stored client or project neither adds nor
    removes nor reorders: the identifiers of the collection are as before,
    and so is everything outside it.  A dialog opened on an entry does the
    same when the entry is still stored, and puts the entry back in front
    when it is not. *)
Theorem edit_keeps_identifiers :
  forall env state,
    (forall client form,
       let s := handle trim env state (SaveClient (Some client) form) in
       List.map Client.id (clients s) = List.map Client.id (clients state)
       /\ projects s = projects state /\ entries s = entries state
       /\ invoices s = invoices state /\ runningTimer s = runningTimer state)
    /\ (forall project form,
          let s := handle trim env state (SaveProject (Some project) form) in
          List.map Project.id (projects s) = List.map Project.id (projects state)
          /\ clients s = clients state /\ entries s = entries state
          /\ invoices s = invoices state /\ runningTimer s = runningTimer state)
    /\ (forall entry form,
          let s := handle trim env state (SaveEntry (Some entry) form) in
          List.map TimeEntry.id (entries s)
          = (if existsb (fun x => String.eqb (TimeEntry.id x) (TimeEntry.id entry))
                        (entries state)
             then List.map TimeEntry.id (entries state)
             else TimeEntry.id entry :: List.map TimeEntry.id (entries state))
          /\ clients s = clients state /\ projects s = projects state
          /\ invoices s = invoices state /\ runningTimer s = runningTimer state).
Proof.
  intros env state. repeat apply conj.
  - intros client form. cbn [handle].
    destruct (ClientDialog_save trim env (Some client) form) as [c |];
      [| repeat split].
    unfold onSaveClient. cbn. repeat split. apply replace_by_id_keys.
  - intros project form. cbn [handle].
    destruct (ProjectDialog_save trim env (Some project) form) as [p |];
      [| repeat split].
    unfold onSaveProject. cbn. repeat split. apply replace_by_id_keys.
  - intros entry form. cbn [handle]. unfold saveEntryDialog.
    cbn [EntryDialog_save]. unfold onSaveEntry. cbn [TimeEntry.id].
    destruct (existsb _ (entries state)); cbn; repeat split.
    apply replace_by_id_keys.
Qed.

End DialogProperties.
